(** * Marathon tracker: a model of [scripts/fetch_streamelements_data.py]

    The script polls a few HTTP endpoints, merges the answers with the
    previously saved [stats.json] and rewrites [stats.json] and
    [daily.json].  The model follows the script function by function:

    - [Py]: the Python values that flow through the script (the result of
      [json.load] and [response.json()]) and the handful of Python
      operations the script applies to them, with the exceptions they raise;
    - the fetchers, as functions of the answer of the HTTP request;
    - [calculate_marathon_day], [format_leaderboard];
    - [main], threading the two data files. *)

From Stdlib Require Import ZArith String Ascii List.
From Stdlib Require Import Floats.SpecFloat.
From stdpp Require Import gmap strings list fin_maps pretty sorting.

#[local] Open Scope string_scope.
#[local] Open Scope list_scope.
#[local] Open Scope Z_scope.
#[local] Set Warnings "-register-all,-clear-no-such-hyp".

(** ** Python values and operations *)

Module Py.

(** The exceptions the script can run into. *)
Inductive exn : Type :=
  | TypeError
  | AttributeError
  | KeyError
  | ValueError
  | OverflowError.

(** The outcome of evaluating a Python expression. *)
Inductive result (A : Type) : Type :=
  | Ok (a : A)
  | Raise (e : exn).
Arguments Ok {A} a.
Arguments Raise {A} e.

#[global] Instance result_ret : MRet result := λ A a, Ok a.
#[global] Instance result_bind : MBind result := λ A B k r,
  match r with
  | Ok a => k a
  | Raise e => Raise e
  end.

(** What [json.load] produces.  A [float] is an IEEE 754 binary64 number
    ([json] also reads [NaN] and [Infinity]); a [dict] has string keys. *)
Inductive value : Type :=
  | VNone
  | VBool (b : bool)
  | VInt (n : Z)
  | VFloat (f : spec_float)
  | VStr (s : string)
  | VList (l : list value)
  | VDict (d : gmap string value).

(** *** Floats *)

Definition prec : Z := 53.
Definition emax : Z := 1024.

(** [float(n)] for an [int]: correctly rounded, [OverflowError] when [n]
    is too large for a double. *)
Definition float_of_int (n : Z) : result spec_float :=
  match binary_normalize prec emax n 0 false with
  | S754_infinity _ => Raise OverflowError
  | f => Ok f
  end.

(** [int(f)]: truncation towards zero. *)
Definition int_of_float (f : spec_float) : result Z :=
  match f with
  | S754_zero _ => Ok 0
  | S754_finite s m e => Ok (cond_Zopp s (Z.shiftl (Z.pos m) e))
  | S754_infinity _ => Raise OverflowError
  | S754_nan => Raise ValueError
  end.

(** [f > 0]: the comparison of a float with the [int] 0 is exact. *)
Definition float_gt_zero (f : spec_float) : bool :=
  match f with
  | S754_finite false _ _ | S754_infinity false => true
  | _ => false
  end.

Definition float_is_zero (f : spec_float) : bool :=
  match f with
  | S754_zero _ => true
  | _ => false
  end.

(** *** Truth value, [or], [isinstance] *)

(** [bool(v)]: [None], [False], zero, and the empty string, list and dict
    are false. *)
Definition truthy (v : value) : bool :=
  match v with
  | VNone => false
  | VBool b => b
  | VInt n => negb (n =? 0)
  | VFloat f => negb (float_is_zero f)
  | VStr s => negb (String.eqb s "")
  | VList l => match l with [] => false | _ => true end
  | VDict d => negb (bool_decide (d = ∅))
  end.

(** [a or b]. *)
Definition py_or (a b : value) : value := if truthy a then a else b.

(** [isinstance(v, (int, float))].  [bool] is a subclass of [int]. *)
Definition isinstance_int_float (v : value) : bool :=
  match v with
  | VBool _ | VInt _ | VFloat _ => true
  | _ => false
  end.

(** [v > 0] for an [int], [bool] or [float]; a [TypeError] otherwise. *)
Definition py_gt_zero (v : value) : result bool :=
  match v with
  | VBool b => Ok b
  | VInt n => Ok (0 <? n)
  | VFloat f => Ok (float_gt_zero f)
  | _ => Raise TypeError
  end.

(** [int(v)] for an [int], [bool] or [float]. *)
Definition py_int (v : value) : result Z :=
  match v with
  | VBool b => Ok (if b then 1 else 0)
  | VInt n => Ok n
  | VFloat f => int_of_float f
  | _ => Raise TypeError
  end.

(** [n - v] for an [int] [n]. *)
Definition py_int_sub (n : Z) (v : value) : result value :=
  match v with
  | VBool b => Ok (VInt (n - (if b then 1 else 0)))
  | VInt m => Ok (VInt (n - m))
  | VFloat f => x ← float_of_int n; Ok (VFloat (SFsub prec emax x f))
  | _ => Raise TypeError
  end.

(** *** Strings

    A string is a sequence of code points below 256. *)

(** [c.isspace()]. *)
Definition isspace (c : ascii) : bool :=
  let n := Z.of_nat (nat_of_ascii c) in
  ((9 <=? n) && (n <=? 13)) || ((28 <=? n) && (n <=? 32))
  || (n =? 133) || (n =? 160).

Fixpoint lstrip (s : string) : string :=
  match s with
  | String c s' => if isspace c then lstrip s' else s
  | EmptyString => EmptyString
  end.

(** [s.strip()]. *)
Definition strip (s : string) : string :=
  String.rev (lstrip (String.rev (lstrip s))).

(** [c.lower()]: the letters A-Z and the accented capitals of Latin-1. *)
Definition lower_char (c : ascii) : ascii :=
  let n := Z.of_nat (nat_of_ascii c) in
  if ((65 <=? n) && (n <=? 90))
     || ((192 <=? n) && (n <=? 222) && negb (n =? 215))
  then ascii_of_nat (nat_of_ascii c + 32)
  else c.

(** [s.lower()]. *)
Fixpoint lower (s : string) : string :=
  match s with
  | String c s' => String (lower_char c) (lower s')
  | EmptyString => EmptyString
  end.

(** [sub in s] for two strings. *)
Fixpoint str_contains (sub s : string) : bool :=
  String.prefix sub s ||
  match s with
  | String _ s' => str_contains sub s'
  | EmptyString => false
  end.

(** [c.isdigit()]: the ASCII digits and the three superscript digits of
    Latin-1. *)
Definition isdigit_char (c : ascii) : bool :=
  let n := Z.of_nat (nat_of_ascii c) in
  ((48 <=? n) && (n <=? 57)) || (n =? 178) || (n =? 179) || (n =? 185).

(** [s.isdigit()]: false on the empty string. *)
Definition isdigit (s : string) : bool :=
  match s with
  | EmptyString => false
  | _ => forallb isdigit_char (list_ascii_of_string s)
  end.

Fixpoint int_of_digits (acc : Z) (s : string) : result Z :=
  match s with
  | EmptyString => Ok acc
  | String c s' =>
      let n := Z.of_nat (nat_of_ascii c) in
      if (48 <=? n) && (n <=? 57)
      then int_of_digits (10 * acc + (n - 48)) s'
      else Raise ValueError
  end.

(** The most digits [int] converts from a string, and [str] or
    [json.dump] writes for an [int]: the interpreter's default. *)
Definition max_str_digits : Z := 4300.

(** [int(s)] for a string that passed [isdigit]: the superscript digits
    are digits for [isdigit] and a [ValueError] for [int], as is a string
    of more than [max_str_digits] digits. *)
Definition int_of_str (s : string) : result Z :=
  if max_str_digits <? Z.of_nat (String.length s) then Raise ValueError
  else int_of_digits 0 s.

(** *** Containers *)

(** [v.get(k, default)]: only a [dict] has the method. *)
Definition py_get (v : value) (k : string) (dflt : value) : result value :=
  match v with
  | VDict d => Ok (default dflt (d !! k))
  | _ => Raise AttributeError
  end.

(** [k in v] for a string [k]: key of a dict, substring of a string,
    element of a list; a [TypeError] on what is not iterable. *)
Definition py_in (k : string) (v : value) : result bool :=
  match v with
  | VDict d => Ok (bool_decide (is_Some (d !! k)))
  | VStr s => Ok (str_contains k s)
  | VList l =>
      Ok (existsb (λ x, match x with VStr s => String.eqb k s | _ => false end) l)
  | _ => Raise TypeError
  end.

(** [v[k]] for a string [k]. *)
Definition py_getitem (v : value) (k : string) : result value :=
  match v with
  | VDict d => match d !! k with Some x => Ok x | None => Raise KeyError end
  | _ => Raise TypeError
  end.

(** [v[k] = x] for a string [k]. *)
Definition py_setitem (v : value) (k : string) (x : value) : result value :=
  match v with
  | VDict d => Ok (VDict (<[k := x]> d))
  | _ => Raise TypeError
  end.

(** [v[:n]]: a prefix of a list or of a string. *)
Definition py_prefix (n : nat) (v : value) : result value :=
  match v with
  | VList l => Ok (VList (take n l))
  | VStr s => Ok (VStr (String.substring 0 n s))
  | _ => Raise TypeError
  end.

(** The items a [for] loop sees: the elements of a list, the characters
    of a string, the keys of a dict. *)
Definition py_iter (v : value) : result (list value) :=
  match v with
  | VList l => Ok l
  | VStr s => Ok ((λ c, VStr (String c "")) <$> list_ascii_of_string s)
  | VDict d => Ok (VStr <$> (map_to_list d).*1)
  | _ => Raise TypeError
  end.

(** [f"{v:,}"]: defined on numbers only. *)
Definition py_format_thousands (v : value) : result unit :=
  match v with
  | VBool _ | VInt _ | VFloat _ => Ok tt
  | VStr _ => Raise ValueError
  | _ => Raise TypeError
  end.

End Py.
Import Py.

(** ** Configuration *)

Definition MARATHON_START : string := "2025-10-27T00:00:00Z".
Definition MARATHON_END : string := "2025-11-24T00:00:00Z".

(** ** HTTP

    [requests.get(url, timeout=10)] answers with a response or raises (a
    timeout, a refused connection): [None].  [json] is the parsed body, or
    [None] when [response.json()] raises. *)

Record response : Type := Response {
  status_code : Z;
  text : string;
  json : option value
}.

Definition requests : Type := string → option response.

Section Fetchers.
Variable get : requests.

Definition get_streamelements_channel_id (channel_name : string)
    : option string :=
  match get ("https://decapi.me/twitch/id/" +:+ channel_name) with
  | Some r => if status_code r =? 200 then Some (strip (text r)) else None
  | None => None
  end.

Definition get_streamelements_stats (channel_id : string) : value :=
  match get ("https://api.streamelements.com/kappa/v2/channels/"
             +:+ channel_id +:+ "/stats") with
  | Some r =>
      if status_code r =? 200
      then match json r with Some v => v | None => VNone end
      else VNone
  | None => VNone
  end.

Definition get_streamelements_top_data (channel_id data_type : string) : value :=
  match get ("https://api.streamelements.com/kappa/v2/channels/"
             +:+ channel_id +:+ "/top/" +:+ data_type) with
  | Some r =>
      if status_code r =? 200
      then match json r with
           | Some data =>
               match users ← py_get data "users" (VList []); py_prefix 10 users with
               | Ok v => v
               | Raise _ => VList []
               end
           | None => VList []
           end
      else VList []
  | None => VList []
  end.

Definition get_twitch_follower_count (channel_name : string) : Z :=
  match get ("https://decapi.me/twitch/followcount/" +:+ channel_name) with
  | Some r =>
      if status_code r =? 200
      then let count := strip (text r) in
           if isdigit count
           then match int_of_str count with Ok n => n | Raise _ => 0 end
           else 0
      else 0
  | None => 0
  end.

Definition get_twitch_live_status (channel_name : string) : bool :=
  match get ("https://decapi.me/twitch/uptime/" +:+ channel_name) with
  | Some r =>
      let text := lower (strip (text r)) in
      negb (str_contains "offline" text)
  | None => false
  end.
End Fetchers.

(** ** The marathon day

    A [datetime] is a number of microseconds since 1970-01-01T00:00:00Z. *)

Definition days_from_civil (y m d : Z) : Z :=
  let y' := if m <=? 2 then y - 1 else y in
  let era := y' / 400 in
  let yoe := y' - era * 400 in
  let doy := (153 * (if 2 <? m then m - 3 else m + 9) + 2) / 5 + d - 1 in
  let doe := yoe * 365 + yoe / 4 - yoe / 100 + doy in
  era * 146097 + doe - 719468.

Definition utc (y m d hh mm ss : Z) : Z :=
  (((days_from_civil y m d * 24 + hh) * 60 + mm) * 60 + ss) * 1000000.

(** [parser.parse] on a timestamp written [YYYY-MM-DDTHH:MM:SSZ]. *)
Definition parse (s : string) : result Z :=
  y ← int_of_str (String.substring 0 4 s);
  m ← int_of_str (String.substring 5 2 s);
  d ← int_of_str (String.substring 8 2 s);
  hh ← int_of_str (String.substring 11 2 s);
  mm ← int_of_str (String.substring 14 2 s);
  ss ← int_of_str (String.substring 17 2 s);
  Ok (utc y m d hh mm ss).

(** [parser.parse(MARATHON_START)]. *)
Definition marathon_start : Z := utc 2025 10 27 0 0 0.

Definition day_us : Z := 86400 * 1000000.

(** [(now - start).days]: a [timedelta] keeps its seconds and microseconds
    non-negative, so [days] is the floor. *)
Definition timedelta_days (now start : Z) : Z := (now - start) / day_us.

(** The body of [calculate_marathon_day], for any start. *)
Definition marathon_day (start now : Z) : Z :=
  Z.max 1 (Z.min 28 (timedelta_days now start + 1)).

Definition calculate_marathon_day (now : Z) : Z :=
  marathon_day marathon_start now.

(** ** The leaderboard *)

Record entry : Type := Entry { username : value; amount : Z }.

(** The dict [{'username': ..., 'amount': ...}]. *)
Definition entry_value (e : entry) : value :=
  VDict {[ "username" := username e; "amount" := VInt (amount e) ]}.

(** [sorted(l, key=key, reverse=True)]: a stable sort, largest key first. *)
Fixpoint insert_reverse {A} (key : A → Z) (x : A) (l : list A) : list A :=
  match l with
  | [] => [x]
  | y :: l' => if key x <? key y then y :: insert_reverse key x l' else x :: l
  end.

Definition sorted_reverse {A} (key : A → Z) (l : list A) : list A :=
  foldr (insert_reverse key) [] l.

(** One turn of the loop of [format_leaderboard]. *)
Definition leaderboard_append (amount_key : string)
    (leaderboard : list entry) (user : value) : result (list entry) :=
  name ← py_get user "name" VNone;
  username ← (if truthy name then Ok name
              else u ← py_get user "username" VNone;
                   Ok (py_or u (VStr "Unknown")));
  amount ← py_get user amount_key (VInt 0);
  if isinstance_int_float amount then
    positive ← py_gt_zero amount;
    if positive : bool then
      n ← py_int amount;
      Ok (leaderboard ++ [{| username := username; amount := n |}])
    else Ok leaderboard
  else Ok leaderboard.

Fixpoint leaderboard_loop (amount_key : string) (users : list value)
    (leaderboard : list entry) : result (list entry) :=
  match users with
  | [] => Ok leaderboard
  | user :: users' =>
      leaderboard' ← leaderboard_append amount_key leaderboard user;
      leaderboard_loop amount_key users' leaderboard'
  end.

Definition format_leaderboard (users : list value) (amount_key : string)
    : result (list entry) :=
  leaderboard ← leaderboard_loop amount_key users [];
  Ok (sorted_reverse amount leaderboard).

(** ** [main]

    What a run reads from outside: the environment, the HTTP answers and
    the clock (read once for the day, once for [lastUpdated], once for the
    date of the daily record). *)

Record world : Type := World {
  environ : option string;
  get : requests;
  now_day : Z;
  now_isoformat : string;
  now_date : string
}.

(** The data directory: the parsed content of each file, [None] when the
    file does not exist.  [save_data] is taken to write the document it
    is given; the [ValueError] of [json.dump] on an [int] of more than
    4300 digits, which leaves a file cut short, is outside the model. *)
Record files : Type := Files {
  stats_file : option value;
  daily_file : option value
}.

Definition load_existing_data (file : option value) : value :=
  default VNone file.

(** What step 6 of [main] computes: the document to save, and the three
    values the closing summary prints. *)
Record processed : Type := Processed {
  stats : value;
  marathon_followers : value;
  total_subs : value;
  total_bits : value
}.

(** Step 6 of [main]: from the fetched values and the saved document to
    the new document. *)
Definition main_stats (follower_count : Z) (is_live : bool) (current_day : Z)
    (se_stats top_subs top_cheers : value) (updated : string)
    (existing_stats : value) : result processed :=
  recorded ← (if truthy existing_stats
              then py_in "marathonStartFollowers" existing_stats
              else Ok false);
  '(marathon_followers, marathon_start_followers) ←
    (if recorded : bool then
       start ← py_getitem existing_stats "marathonStartFollowers";
       marathon_followers ← py_int_sub follower_count start;
       marathon_start_followers ←
         py_getitem existing_stats "marathonStartFollowers";
       Ok (marathon_followers, marathon_start_followers)
     else Ok (VInt 0, VInt follower_count));
  sub_leaderboard ← (users ← py_iter top_subs;
                     format_leaderboard users "amount");
  bits_leaderboard ← (users ← py_iter top_cheers;
                      format_leaderboard users "amount");
  chatters_leaderboard ← (if truthy existing_stats
                          then py_get existing_stats "topChatters" (VList [])
                          else Ok (VList []));
  total_subs ← (subscribers ← py_get se_stats "subscribers" (VDict ∅);
                py_get subscribers "count" (VInt 0));
  total_bits ← (cheers ← py_get se_stats "cheers" (VDict ∅);
                py_get cheers "amount" (VInt 0));
  marathon_subs ← (if truthy existing_stats
                   then old ← py_get existing_stats "stats" (VDict ∅);
                        py_get old "marathonSubs" (VInt 0)
                   else Ok (VInt 0));
  Ok {| stats := VDict {[
          "lastUpdated" := VStr updated;
          "marathonStart" := VStr MARATHON_START;
          "marathonEnd" := VStr MARATHON_END;
          "currentDay" := VInt current_day;
          "isLive" := VBool is_live;
          "stats" := VDict {[
            "totalFollowers" := VInt follower_count;
            "marathonFollowers" := marathon_followers;
            "marathonStartFollowers" := marathon_start_followers;
            "totalSubs" := total_subs;
            "marathonSubs" := marathon_subs;
            "totalBits" := total_bits ]};
          "topSubGifters" := VList (entry_value <$> sub_leaderboard);
          "topBitDonors" := VList (entry_value <$> bits_leaderboard);
          "topChatters" := chatters_leaderboard ]};
        marathon_followers := marathon_followers;
        total_subs := total_subs;
        total_bits := total_bits |}.

(** The record a new day starts with. *)
Definition new_day (date : string) : value :=
  VDict {[ "date" := VStr date;
           "subGifters" := VList [];
           "bitDonors" := VList [];
           "chatters" := VList [] ]}.

Definition day_key (current_day : Z) : string := "day" +:+ pretty current_day.

(** The daily log of step 7 of [main]: from the saved log to the new one. *)
Definition main_daily (current_day : Z) (date : string) (loaded : value)
    : result value :=
  let daily_data := py_or loaded (VDict ∅) in
  present ← py_in (day_key current_day) daily_data;
  if present : bool then Ok daily_data
  else py_setitem daily_data (day_key current_day) (new_day date).

(** How a run ends. *)
Inductive outcome : Type :=
  | Completed
  | ChannelNotFound
  | Raised (e : exn).

Definition main (w : world) (fs : files) : files * outcome :=
  let CHANNEL_NAME := default "marlon" (environ w) in
  match get_streamelements_channel_id (get w) CHANNEL_NAME with
  | None | Some "" => (fs, ChannelNotFound)
  | Some channel_id =>
      let follower_count := get_twitch_follower_count (get w) CHANNEL_NAME in
      let is_live := get_twitch_live_status (get w) CHANNEL_NAME in
      let current_day := calculate_marathon_day (now_day w) in
      let se_stats := get_streamelements_stats (get w) channel_id in
      let se_stats := if truthy se_stats then se_stats else VDict ∅ in
      let top_subs := get_streamelements_top_data (get w) channel_id "subscriber" in
      let top_cheers := get_streamelements_top_data (get w) channel_id "cheer" in
      match main_stats follower_count is_live current_day se_stats top_subs
              top_cheers (now_isoformat w)
              (load_existing_data (stats_file fs)) with
      | Raise e => (fs, Raised e)
      | Ok p =>
          let fs := {| stats_file := Some (stats p);
                       daily_file := daily_file fs |} in
          match main_daily current_day (now_date w)
                  (load_existing_data (daily_file fs)) with
          | Raise e => (fs, Raised e)
          | Ok daily_data =>
              let fs := {| stats_file := stats_file fs;
                           daily_file := Some daily_data |} in
              match _ ← py_format_thousands (marathon_followers p);
                    _ ← py_format_thousands (total_subs p);
                    py_format_thousands (total_bits p) with
              | Raise e => (fs, Raised e)
              | Ok _ => (fs, Completed)
              end
          end
      end
  end.

(** ** Reading a document *)

(** The entry [k] of a dict; nothing for any other value. *)
Definition field (k : string) (v : value) : option value :=
  match v with
  | VDict d => d !! k
  | _ => None
  end.

(** The entry [k] of the [stats] block of a document. *)
Definition stats_field (k : string) (doc : value) : option value :=
  field "stats" doc ≫= field k.

(** ** Vocabulary of the specification *)

(** Largest key first. *)
Definition descending {A} (key : A → Z) : relation A := λ a b, key b ≤ key a.

(** The amount of a raw user record: the entry under the amount key, 0
    when there is none. *)
Definition user_amount (amount_key : string) (user : gmap string value)
    : value :=
  default (VInt 0) (user !! amount_key).

(** An amount that counts: a number (an [int], a [bool], which Python
    takes for the [int] 0 or 1, or a [float]) strictly greater than zero. *)
Definition counted (v : value) : bool :=
  match v with
  | VBool b => b
  | VInt n => bool_decide (0 < n)
  | VFloat (S754_finite s _ _) | VFloat (S754_infinity s) => negb s
  | _ => false
  end.

(** [k] is the integer part of [m * 2 ^ e]. *)
Definition integer_part (m : positive) (e k : Z) : Prop :=
  if bool_decide (0 ≤ e) then k = Z.pos m * 2 ^ e
  else k * 2 ^ (- e) ≤ Z.pos m < (k + 1) * 2 ^ (- e).

(** [n] is the number [v] with its fraction dropped. *)
Definition truncates_to (v : value) (n : Z) : Prop :=
  match v with
  | VBool b => n = if b then 1 else 0
  | VInt m => n = m
  | VFloat (S754_zero _) => n = 0
  | VFloat (S754_finite s m e) => integer_part m e (if s then - n else n)
  | _ => False
  end.

(** An entry of a record that is present and not empty. *)
Definition nonempty (o : option value) : option value :=
  match o with
  | Some v => if truthy v then Some v else None
  | None => None
  end.

(** The name under which a raw user record is listed. *)
Definition resolve_username (user : gmap string value) : value :=
  match nonempty (user !! "name") with
  | Some v => v
  | None =>
      match nonempty (user !! "username") with
      | Some v => v
      | None => VStr "Unknown"
      end
  end.

(** The entry a counted raw user record is listed as. *)
Definition listed_as (amount_key : string) (user : gmap string value)
    (e : entry) : Prop :=
  username e = resolve_username user
  ∧ truncates_to (user_amount amount_key user) (amount e).

(** A block of a document, where one is expected: absent, or a dict. *)
Definition block_ok (o : option value) : Prop :=
  match o with
  | None | Some (VDict _) => True
  | _ => False
  end.

(** A recorded baseline, where one is expected: absent, or an integer. *)
Definition baseline_ok (o : option value) : Prop :=
  match o with
  | None | Some (VInt _) => True
  | _ => False
  end.

(** A top list as the service sends it: a list of records, none with an
    infinite amount. *)
Definition top_ok (top : value) : Prop :=
  ∃ users : list (gmap string value),
    top = VList (VDict <$> users)
    ∧ Forall (λ d, user_amount "amount" d ≠ VFloat (S754_infinity false)) users.

(** The aggregate statistics as the service sends them, or the empty dict
    that stands in for them: a dict whose [subscribers] and [cheers]
    blocks, if any, are dicts. *)
Definition aggregate_ok (se_stats : value) : Prop :=
  ∃ d, se_stats = VDict d
       ∧ block_ok (d !! "subscribers") ∧ block_ok (d !! "cheers").

Definition fetched_ok (se_stats top_subs top_cheers : value) : Prop :=
  aggregate_ok se_stats ∧ top_ok top_subs ∧ top_ok top_cheers.

(** A saved document the merge can read: none, or a dict whose [stats]
    block, if any, is a dict and whose top-level baseline, if any, is an
    integer. *)
Definition prior_ok (existing_stats : value) : Prop :=
  existing_stats = VNone
  ∨ ∃ d, existing_stats = VDict d
         ∧ block_ok (d !! "stats")
         ∧ baseline_ok (d !! "marathonStartFollowers").

(** A service that knows the channel [marlon]: it answers the requests
    for its id, its follower count and its uptime, and no other. *)
Definition scripted (channel_id followers uptime : string) : requests :=
  λ url,
    if String.eqb url "https://decapi.me/twitch/id/marlon"
    then Some {| status_code := 200; text := channel_id; json := None |}
    else if String.eqb url "https://decapi.me/twitch/followcount/marlon"
    then Some {| status_code := 200; text := followers; json := None |}
    else if String.eqb url "https://decapi.me/twitch/uptime/marlon"
    then Some {| status_code := 200; text := uptime; json := None |}
    else None.

(** A string of white space only. *)
Definition blank (s : string) : bool :=
  forallb isspace (list_ascii_of_string s).

(** A string of ASCII digits only. *)
Definition ascii_digits (s : string) : bool :=
  forallb (λ c, let n := Z.of_nat (nat_of_ascii c) in (48 <=? n) && (n <=? 57))
    (list_ascii_of_string s).

(** A string that does not start with white space. *)
Definition unframed (s : string) : bool :=
  match s with
  | EmptyString => true
  | String c _ => negb (isspace c)
  end.

(** [parser.parse(MARATHON_END)]. *)
Definition marathon_end : Z := utc 2025 11 24 0 0 0.

(** A recorded baseline the follower count can be compared with: absent,
    or a number (for a [float], the count must convert to one). *)
Definition baseline_numeric (follower_count : Z) (o : option value) : Prop :=
  match o with
  | None | Some (VBool _) | Some (VInt _) => True
  | Some (VFloat _) => ∃ x, float_of_int follower_count = Ok x
  | _ => False
  end.

(** The saved documents on which the merge gets through: those Python
    takes for false (none, [null], an empty object, ...) and the objects
    whose [stats] entry, if any, is an object and whose top-level
    baseline, if any, is numeric. *)
Definition prior_readable (follower_count : Z) (existing_stats : value)
    : Prop :=
  truthy existing_stats = false
  ∨ ∃ d, existing_stats = VDict d
         ∧ block_ok (d !! "stats")
         ∧ baseline_numeric follower_count (d !! "marathonStartFollowers").

(** An aggregate of the statistics: [se_stats.get(block, {}).get(k, 0)]. *)
Definition se_stats_total (se_stats : value) (block k : string)
    : result value :=
  b ← py_get se_stats block (VDict ∅); py_get b k (VInt 0).

(** The pieces of a run of [main], by name: the channel, what step 6
    computes for a resolved channel id, what step 7 makes of the daily
    log, and the closing summary. *)
Definition channel_name (w : world) : string := default "marlon" (environ w).

Definition run_se_stats (w : world) (channel_id : string) : value :=
  let se_stats := get_streamelements_stats (get w) channel_id in
  if truthy se_stats then se_stats else VDict ∅.

Definition run_stats (w : world) (channel_id : string) (fs : files)
    : result processed :=
  main_stats (get_twitch_follower_count (get w) (channel_name w))
    (get_twitch_live_status (get w) (channel_name w))
    (calculate_marathon_day (now_day w))
    (run_se_stats w channel_id)
    (get_streamelements_top_data (get w) channel_id "subscriber")
    (get_streamelements_top_data (get w) channel_id "cheer")
    (now_isoformat w)
    (load_existing_data (stats_file fs)).

Definition run_daily (w : world) (fs : files) : result value :=
  main_daily (calculate_marathon_day (now_day w)) (now_date w)
    (load_existing_data (daily_file fs)).

Definition run_summary (p : processed) : result unit :=
  _ ← py_format_thousands (marathon_followers p);
  _ ← py_format_thousands (total_subs p);
  py_format_thousands (total_bits p).

(** A request that fails: it raises, or is answered with another status
    than 200. *)
Definition fails (o : option response) : Prop :=
  match o with
  | None => True
  | Some r => status_code r ≠ 200
  end.

(** Successive runs of [main], each reading the files the one before
    left. *)
Definition runs (ws : list world) (fs : files) : files :=
  foldl (λ fs w, (main w fs).1) fs ws.

(** The keys of the 28 days. *)
Definition day_keys : gset string := list_to_set (day_key <$> seqZ 1 28).

(** No file yet. *)
Definition no_files : files := {| stats_file := None; daily_file := None |}.

(** * Properties *)

(** ** The result monad *)

Lemma bind_Ok {A B} (m : result A) (k : A → result B) (b : B) :
  m ≫= k = Ok b ↔ ∃ a, m = Ok a ∧ k a = Ok b.
Proof.
  destruct m as [a|e]; simpl; split.
  - intros H. by exists a.
  - by intros (a' & [= ->] & H).
  - discriminate.
  - by intros (a' & [=] & _).
Qed.

Ltac inv_bind H :=
  repeat match type of H with
  | _ ≫= _ = Ok _ =>
      let a := fresh "a" in
      let Ha := fresh "Ha" in
      apply bind_Ok in H as (a & Ha & H)
  end.

(** ** The stable sort *)

Section sorted_reverse.
Context {A : Type} (key : A → Z).

#[local] Abbreviation descending := (descending key).

Lemma insert_reverse_elem_of x y l :
  y ∈ insert_reverse key x l ↔ y = x ∨ y ∈ l.
Proof.
  induction l as [|z l IH]; simpl.
  - rewrite list_elem_of_singleton. set_solver.
  - destruct (key x <? key z); [|set_solver].
    rewrite !elem_of_cons, IH. naive_solver.
Qed.

Lemma insert_reverse_sorted x l :
  StronglySorted descending l →
  StronglySorted descending (insert_reverse key x l).
Proof.
  induction 1 as [|z l Hl IH Hz]; simpl.
  - repeat constructor.
  - destruct (Z.ltb_spec (key x) (key z)) as [Hlt|Hge].
    + constructor; [done|].
      apply Forall_forall. intros y [->|Hy]%insert_reverse_elem_of.
      * unfold descending. lia.
      * by eapply Forall_forall in Hz.
    + constructor; [by constructor|].
      constructor; [done|].
      eapply Forall_impl; [exact Hz|].
      unfold descending. intros; simpl in *. lia.
Qed.

Lemma sorted_reverse_sorted l :
  StronglySorted descending (sorted_reverse key l).
Proof.
  induction l; simpl; [constructor|by apply insert_reverse_sorted].
Qed.

(** Inserting does not reorder the elements of one key. *)
Lemma insert_reverse_stable n x l :
  filter (λ a, key a = n) (insert_reverse key x l)
  = filter (λ a, key a = n) (x :: l).
Proof.
  induction l as [|z l IH]; simpl; [done|].
  destruct (Z.ltb_spec (key x) (key z)) as [Hlt|Hge]; [|done].
  rewrite (filter_cons _ z), IH, !filter_cons.
  repeat case_decide; try done; lia.
Qed.

Lemma sorted_reverse_stable n l :
  filter (λ a, key a = n) (sorted_reverse key l)
  = filter (λ a, key a = n) l.
Proof.
  induction l as [|x l IH]; simpl; [done|].
  by rewrite insert_reverse_stable, !filter_cons, IH.
Qed.

Lemma sorted_reverse_elem_of x l : x ∈ sorted_reverse key l ↔ x ∈ l.
Proof.
  induction l as [|y l IH]; simpl; [done|].
  rewrite insert_reverse_elem_of, IH. set_solver.
Qed.

(** A list already in order is left as it is. *)
Lemma sorted_reverse_id l :
  StronglySorted descending l → sorted_reverse key l = l.
Proof.
  induction 1 as [|x l Hl IH Hx]; simpl; [done|].
  rewrite IH. destruct Hx as [|y l Hy _]; simpl; [done|].
  destruct (Z.ltb_spec (key x) (key y)); [|done].
  unfold descending in Hy. lia.
Qed.

Lemma descending_filter (P : A → Prop) `{!∀ a, Decision (P a)} l :
  StronglySorted descending l → StronglySorted descending (filter P l).
Proof.
  induction 1 as [|x l Hl IH Hx]; [constructor|].
  rewrite filter_cons. case_decide; [|done].
  constructor; [done|].
  apply Forall_forall. intros y [_ Hy]%list_elem_of_filter.
  by eapply Forall_forall in Hx.
Qed.
End sorted_reverse.

(** ** The leaderboard formatter *)

Lemma integer_part_shiftl (m : positive) (e : Z) :
  integer_part m e (Z.shiftl (Z.pos m) e).
Proof.
  unfold integer_part. case_bool_decide as He.
  - by rewrite Z.shiftl_mul_pow2.
  - rewrite <- Z.shiftr_opp_r, Z.shiftr_div_pow2 by lia.
    assert (0 < 2 ^ (- e)) as Hpos by (apply Z.pow_pos_nonneg; lia).
    pose proof (Z.div_mod (Z.pos m) (2 ^ (- e)) ltac:(lia)) as Hdm.
    pose proof (Z.mod_pos_bound (Z.pos m) (2 ^ (- e)) Hpos) as Hmod.
    nia.
Qed.

Lemma py_int_truncates (v : value) (n : Z) :
  counted v = true → py_int v = Ok n → truncates_to v n.
Proof.
  destruct v as [|b|m|f|s|l|d]; simpl; try done.
  - by intros _ [= <-].
  - by intros _ [= <-].
  - destruct f as [s|s| |s m e]; simpl; try done.
    intros Hs [= <-]. apply negb_true_iff in Hs as ->. simpl.
    apply integer_part_shiftl.
Qed.

Lemma py_int_counted (v : value) :
  counted v = true → v ≠ VFloat (S754_infinity false) →
  ∃ n, py_int v = Ok n.
Proof.
  destruct v as [|b|m|f|s|l|d]; simpl; try done; eauto.
  destruct f as [s|[]| |s m e]; simpl; try done; eauto.
Qed.

(** One turn of the loop on a record: listed when the amount counts. *)
Lemma leaderboard_append_dict amount_key leaderboard (d : gmap string value) :
  leaderboard_append amount_key leaderboard (VDict d)
  = if counted (user_amount amount_key d)
    then n ← py_int (user_amount amount_key d);
         Ok (leaderboard ++ [Entry (resolve_username d) n])
    else Ok leaderboard.
Proof.
  unfold leaderboard_append, resolve_username, user_amount, nonempty, py_or.
  simpl.
  assert (∀ (A : Type) (o : option value) (k : value → result A),
    ((if truthy (default VNone o) then Ok (default VNone o)
      else Ok (if truthy (default VNone (d !! "username"))
               then default VNone (d !! "username") else VStr "Unknown"))
     ≫= k)
    = k match match o with
              | Some v => if truthy v then Some v else None
              | None => None
              end with
        | Some v => v
        | None =>
            match match d !! "username" with
                  | Some v => if truthy v then Some v else None
                  | None => None
                  end with
            | Some v => v
            | None => VStr "Unknown"
            end
        end) as ->.
  { intros A o k. destruct o as [v|]; simpl.
    - destruct (truthy v); [done|].
      by destruct (d !! "username") as [u|]; simpl; [destruct (truthy u)|].
    - by destruct (d !! "username") as [u|]; simpl; [destruct (truthy u)|]. }
  destruct (default (VInt 0) (d !! amount_key)) as [| |m|f| | |]; simpl;
    try done.
  all: destruct (Z.ltb_spec 0 m); case_bool_decide; (done || lia).
Qed.

Lemma leaderboard_loop_listed amount_key (users : list (gmap string value))
    (leaderboard result : list entry) :
  leaderboard_loop amount_key (VDict <$> users) leaderboard = Ok result →
  ∃ kept,
    result = leaderboard ++ kept
    ∧ Forall2 (listed_as amount_key)
        (filter (λ d, counted (user_amount amount_key d)) users) kept.
Proof.
  revert leaderboard.
  induction users as [|d users IH]; intros leaderboard; simpl.
  - intros [= <-]. exists []. by rewrite app_nil_r.
  - rewrite leaderboard_append_dict.
    destruct (counted (user_amount amount_key d)) eqn:Hc; simpl.
    + intros H. apply bind_Ok in H as (lb & Hlb & H).
      apply bind_Ok in Hlb as (n & Hn & [= <-]).
      apply IH in H as (kept & -> & Hkept).
      exists (Entry (resolve_username d) n :: kept).
      rewrite <- app_assoc. split; [done|].
      rewrite filter_cons_True by (by rewrite Hc).
      constructor; [|done].
      split; [done|]. by apply py_int_truncates.
    + intros (kept & -> & Hkept)%IH.
      exists kept. split; [done|].
      rewrite filter_cons_False; [done|]. rewrite Is_true_true. congruence.
Qed.

Lemma leaderboard_loop_total amount_key (users : list (gmap string value))
    (leaderboard : list entry) :
  Forall (λ d, user_amount amount_key d ≠ VFloat (S754_infinity false)) users →
  ∃ result, leaderboard_loop amount_key (VDict <$> users) leaderboard = Ok result.
Proof.
  intros Hfin. revert leaderboard.
  induction Hfin as [|d users Hd _ IH]; intros leaderboard; simpl; [eauto|].
  rewrite leaderboard_append_dict.
  destruct (counted (user_amount amount_key d)) eqn:Hc; simpl; [|done].
  destruct (py_int_counted _ Hc Hd) as [n ->]. simpl. apply IH.
Qed.

(** C4. For every list of raw user records and every amount key, the
    leaderboard the formatter returns is in descending order of amount;
    it lists, for each amount, the counted records in the order in which
    they were met (a stable sort), where a record counts when its amount
    is a number strictly greater than zero; each listed amount is the
    record's amount with its fraction dropped, and each listed name is the
    record's [name] when present and not empty, else its [username] when
    present and not empty, else ["Unknown"].  The formatter returns such a
    leaderboard unless an amount is the float infinity, whose conversion
    to [int] raises. *)
Theorem format_leaderboard_sorted_filtered (users : list (gmap string value))
    (amount_key : string) :
  (Forall (λ d, user_amount amount_key d ≠ VFloat (S754_infinity false)) users →
   ∃ out, format_leaderboard (VDict <$> users) amount_key = Ok out)
  ∧ ∀ out, format_leaderboard (VDict <$> users) amount_key = Ok out →
      StronglySorted (descending amount) out
      ∧ ∃ kept,
          Forall2 (listed_as amount_key)
            (filter (λ d, counted (user_amount amount_key d)) users) kept
          ∧ ∀ n, filter (λ e, amount e = n) out
                 = filter (λ e, amount e = n) kept.
Proof.
  unfold format_leaderboard. split.
  - intros Hfin.
    destruct (leaderboard_loop_total amount_key users [] Hfin) as [lb ->].
    simpl. eauto.
  - intros out H. inv_bind H. injection H as <-.
    apply leaderboard_loop_listed in Ha as (kept & -> & Hkept). simpl.
    split; [apply sorted_reverse_sorted|].
    exists kept. split; [done|].
    intros n. apply sorted_reverse_stable.
Qed.

Lemma format_leaderboard_sorted_filtered_witness :
  let users : list (gmap string value) :=
    [ {[ "name" := VStr "a"; "amount" := VInt 3 ]};
      {[ "username" := VStr "b"; "amount" := VInt 7 ]};
      {[ "name" := VStr ""; "amount" := VInt 7 ]};
      {[ "name" := VStr "d"; "amount" := VStr "9" ]};
      {[ "name" := VStr "e"; "amount" := VInt 0 ]};
      {[ "name" := VStr "f" ]} ] in
  ∃ out, format_leaderboard (VDict <$> users) "amount" = Ok out
         ∧ out = [ {| username := VStr "b"; amount := 7 |};
                   {| username := VStr "Unknown"; amount := 7 |};
                   {| username := VStr "a"; amount := 3 |} ]
         ∧ StronglySorted (descending amount) out.
Proof.
  intros users.
  destruct (format_leaderboard_sorted_filtered users "amount")
    as [Hruns Hsorted].
  destruct Hruns as [out Hout].
  - unfold users. repeat constructor; by vm_compute.
  - exists out. split; [exact Hout|]. split; [|by apply Hsorted].
    revert Hout. vm_compute. by intros [= <-].
Defined.

Lemma resolve_username_truthy (d : gmap string value) :
  truthy (resolve_username d) = true.
Proof.
  unfold resolve_username, nonempty.
  destruct (d !! "name") as [v|]; [destruct (truthy v) eqn:Hv; [done|]|];
    (destruct (d !! "username") as [u|]; [by destruct (truthy u) eqn:Hu|done]).
Qed.

Lemma listed_username_truthy amount_key users kept :
  Forall2 (listed_as amount_key) users kept →
  Forall (λ e, truthy (username e) = true) kept.
Proof.
  induction 1 as [|d e users kept [Hname _] _ IH]; constructor; [|done].
  rewrite Hname. apply resolve_username_truthy.
Qed.

(** One turn of the loop on an entry the formatter itself produced. *)
Lemma leaderboard_append_entry leaderboard (e : entry) :
  truthy (username e) = true →
  leaderboard_append "amount" leaderboard (entry_value e)
  = Ok (if bool_decide (0 < amount e) then leaderboard ++ [e] else leaderboard).
Proof.
  intros Hname. unfold entry_value. rewrite leaderboard_append_dict.
  assert (user_amount "amount"
            {[ "username" := username e; "amount" := VInt (amount e) ]}
          = VInt (amount e)) as -> by done.
  assert (resolve_username
            {[ "username" := username e; "amount" := VInt (amount e) ]}
          = username e) as ->.
  { unfold resolve_username.
    replace (({[ "username" := username e; "amount" := VInt (amount e) ]}
               : gmap string value) !! "name") with (@None value) by done.
    replace (({[ "username" := username e; "amount" := VInt (amount e) ]}
               : gmap string value) !! "username")
      with (Some (username e)) by done.
    simpl. by rewrite Hname. }
  simpl. case_bool_decide; [|done]. by destruct e.
Qed.

Lemma leaderboard_loop_entries (l leaderboard : list entry) :
  Forall (λ e, truthy (username e) = true) l →
  leaderboard_loop "amount" (entry_value <$> l) leaderboard
  = Ok (leaderboard ++ filter (λ e, 0 < amount e) l).
Proof.
  intros Hl. revert leaderboard.
  induction Hl as [|e l He _ IH]; intros leaderboard; simpl.
  - by rewrite app_nil_r.
  - rewrite leaderboard_append_entry by done. simpl.
    rewrite IH, filter_cons. case_bool_decide.
    + rewrite decide_True by done. by rewrite <- app_assoc.
    + by rewrite decide_False by done.
Qed.

(** What the formatter does to a leaderboard it produced. *)
Lemma format_leaderboard_again amount_key (users : list (gmap string value))
    (out : list entry) :
  format_leaderboard (VDict <$> users) amount_key = Ok out →
  format_leaderboard (entry_value <$> out) "amount"
  = Ok (filter (λ e, 0 < amount e) out).
Proof.
  unfold format_leaderboard. intros H.
  apply bind_Ok in H as (lb & Hlb & [= <-]).
  apply leaderboard_loop_listed in Hlb as (kept & -> & Hkept%listed_username_truthy).
  simpl in *. rewrite leaderboard_loop_entries; simpl.
  - f_equal. apply sorted_reverse_id, descending_filter, sorted_reverse_sorted.
  - apply Forall_forall. intros e He%sorted_reverse_elem_of.
    by eapply Forall_forall in Hkept.
Qed.

(** C5, as stated, fails.  The record [{"name": "a", "amount": 0.5}]
    counts, for 0.5 is greater than zero, and is listed with the amount 0;
    formatting the leaderboard again drops that entry. *)
Lemma format_leaderboard_not_idempotent :
  let users : list (gmap string value) :=
    [ {[ "name" := VStr "a";
         "amount" := VFloat (S754_finite false 4503599627370496 (-53)) ]} ] in
  let once := [ {| username := VStr "a"; amount := 0 |} ] in
  format_leaderboard (VDict <$> users) "amount" = Ok once
  ∧ format_leaderboard (entry_value <$> once) "amount" = Ok []
  ∧ Ok [] ≠ Ok once.
Proof. by vm_compute. Qed.

(** C5, amended.  Formatting a leaderboard the formatter produced yields
    that leaderboard without its entries of amount 0 (an amount strictly
    between 0 and 1 is listed as 0); so formatting is idempotent on every
    input whose listed amounts are all at least 1, as they are when the
    amounts are integers. *)
Theorem format_leaderboard_idempotent (users : list (gmap string value))
    (amount_key : string) (out : list entry) :
  format_leaderboard (VDict <$> users) amount_key = Ok out →
  format_leaderboard (entry_value <$> out) "amount"
  = Ok (filter (λ e, 0 < amount e) out)
  ∧ (Forall (λ e, 0 < amount e) out →
     format_leaderboard (entry_value <$> out) "amount" = Ok out).
Proof.
  intros H. pose proof (format_leaderboard_again _ _ _ H) as ->.
  split; [done|]. intros Hpos. f_equal.
  clear H. induction Hpos as [|e l He _ IH]; [done|].
  by rewrite filter_cons_True, IH.
Qed.

Lemma format_leaderboard_idempotent_witness :
  let users : list (gmap string value) :=
    [ {[ "name" := VStr "a"; "amount" := VInt 3 ]};
      {[ "name" := VStr "b"; "amount" := VInt 7 ]} ] in
  let out := [ {| username := VStr "b"; amount := 7 |};
               {| username := VStr "a"; amount := 3 |} ] in
  format_leaderboard (VDict <$> users) "amount" = Ok out
  ∧ format_leaderboard (entry_value <$> out) "amount" = Ok out.
Proof.
  intros users out.
  assert (format_leaderboard (VDict <$> users) "amount" = Ok out) as H
    by (by vm_compute).
  split; [exact H|].
  apply (format_leaderboard_idempotent users "amount" out H).
  repeat constructor.
Defined.

(** ** The marathon day *)

Lemma marathon_start_epoch : marathon_start = 1761523200 * 1000000.
Proof. reflexivity. Qed.

Lemma parse_MARATHON_START : parse MARATHON_START = Ok marathon_start.
Proof. reflexivity. Qed.

(** C6. The marathon day is a total function of the start and of the
    current time: the number [e] of whole days elapsed since the start
    (counted downwards before the start), plus 1, clamped into 1..28.  At
    the start it is 1, 27 days later 28, 1000 days later still 28, one day
    before the start 1, as at any time before the start;
    [calculate_marathon_day] is this function at the configured start. *)
Theorem marathon_day_clamped (T now : Z) (before : positive) :
  1 ≤ marathon_day T now ≤ 28
  ∧ (∃ e, e * day_us ≤ now - T < (e + 1) * day_us
          ∧ marathon_day T now = Z.max 1 (Z.min 28 (e + 1)))
  ∧ marathon_day T T = 1
  ∧ marathon_day T (T + 27 * day_us) = 28
  ∧ marathon_day T (T + 1000 * day_us) = 28
  ∧ marathon_day T (T - day_us) = 1
  ∧ marathon_day T (T - Z.pos before) = 1
  ∧ calculate_marathon_day now = marathon_day marathon_start now.
Proof.
  unfold calculate_marathon_day, marathon_day, timedelta_days.
  change day_us with 86400000000.
  split; [lia|].
  split; [exists ((now - T) / 86400000000); Z.div_mod_to_equations; lia|].
  repeat (split; [Z.div_mod_to_equations; lia|]). done.
Qed.

(** ** The fetchers *)

(** A fetch that fails yields the default of its kind, for the follower
    count, the aggregate statistics and the top lists. *)
Lemma failed_fetch_defaults (get : requests) (name id kind : string) :
  (∀ url, match get url with
          | Some r => status_code r ≠ 200
          | None => True
          end) →
  get_twitch_follower_count get name = 0
  ∧ get_streamelements_stats get id = VNone
  ∧ get_streamelements_top_data get id kind = VList []
  ∧ get_streamelements_channel_id get name = None.
Proof.
  intros Hfail.
  unfold get_twitch_follower_count, get_streamelements_stats,
    get_streamelements_top_data, get_streamelements_channel_id.
  repeat split;
    match goal with
    | |- context [get ?url] =>
        specialize (Hfail url); destruct (get url) as [r|]; [|done];
        by destruct (Z.eqb_spec (status_code r) 200)
    end.
Qed.

(** The live status never looks at the status code. *)
Lemma get_twitch_live_status_body (get : requests) (name : string) (r : response) :
  get ("https://decapi.me/twitch/uptime/" +:+ name) = Some r →
  get_twitch_live_status get name
  = negb (str_contains "offline" (lower (strip (text r)))).
Proof. unfold get_twitch_live_status. by intros ->. Qed.

(** C9, where the code departs from it.  When every request is answered
    503 "Service Unavailable", the follower count, the statistics and the
    top lists fall back to 0, [None] and the empty list, but the live
    status is [True]: [get_twitch_live_status] does not check the status
    code as the other fetchers do, and the body of the error answer does
    not contain "offline".  A request that raises does give [False], as
    does an answer that says "offline" in any case of letters. *)
Theorem live_status_of_failed_fetch :
  let unavailable : requests :=
    λ _, Some {| status_code := 503; text := "Service Unavailable";
                 json := None |} in
  let unreachable : requests := λ _, None in
  get_twitch_follower_count unavailable "marlon" = 0
  ∧ get_streamelements_stats unavailable "12345" = VNone
  ∧ get_streamelements_top_data unavailable "12345" "subscriber" = VList []
  ∧ get_twitch_live_status unavailable "marlon" = true
  ∧ get_twitch_live_status unreachable "marlon" = false
  ∧ get_twitch_live_status (scripted "12345" "500" "marlon is Offline ")
      "marlon" = false
  ∧ get_twitch_live_status (scripted "12345" "500" "2 hours, 5 minutes")
      "marlon" = true.
Proof. by vm_compute. Qed.

(** ** The merge *)

(** Whether the saved document records a baseline, as [main] tests it. *)
Lemma recorded_dict (d : gmap string value) :
  (if truthy (VDict d) then py_in "marathonStartFollowers" (VDict d)
   else Ok false)
  = Ok (bool_decide (is_Some (d !! "marathonStartFollowers"))).
Proof.
  simpl. case_bool_decide as Hd; simpl; [|done].
  subst d. by rewrite lookup_empty.
Qed.

(** A field carried over from the saved document, with its default. *)
Lemma carried_field (existing_stats : value) (k : string) (dflt x : value) :
  (if truthy existing_stats then py_get existing_stats k dflt else Ok dflt)
  = Ok x →
  x = default dflt (field k existing_stats).
Proof.
  destruct existing_stats as [|b|n|f|s|l|d]; simpl.
  - by intros [= <-].
  - destruct b; [done|by intros [= <-]].
  - destruct (n =? 0); [by intros [= <-]|done].
  - destruct (float_is_zero f); [by intros [= <-]|done].
  - destruct (String.eqb s ""); [by intros [= <-]|done].
  - destruct l; [by intros [= <-]|done].
  - case_bool_decide as Hd; simpl; intros [= <-]; [|done].
    subst d. by rewrite lookup_empty.
Qed.

Lemma carried_stats_field (existing_stats : value) (k : string) (dflt x : value) :
  (if truthy existing_stats
   then old ← py_get existing_stats "stats" (VDict ∅); py_get old k dflt
   else Ok dflt) = Ok x →
  x = default dflt (stats_field k existing_stats).
Proof.
  unfold stats_field.
  destruct existing_stats as [|b|n|f|s|l|d]; simpl.
  - by intros [= <-].
  - destruct b; [done|by intros [= <-]].
  - destruct (n =? 0); [by intros [= <-]|done].
  - destruct (float_is_zero f); [by intros [= <-]|done].
  - destruct (String.eqb s ""); [by intros [= <-]|done].
  - destruct l; [by intros [= <-]|done].
  - case_bool_decide as Hd; simpl.
    + subst d. rewrite lookup_empty. by intros [= <-].
    + destruct (d !! "stats") as [[| | | | | |block]|]; simpl; try done.
      * by intros [= <-].
      * rewrite lookup_empty. by intros [= <-].
Qed.

(** What a successful merge did, step by step. *)
Lemma main_stats_inv follower_count is_live current_day se_stats top_subs
    top_cheers updated existing_stats (p : processed) :
  main_stats follower_count is_live current_day se_stats top_subs top_cheers
    updated existing_stats = Ok p →
  ∃ (recorded : bool) (followers start : value),
    (if truthy existing_stats
     then py_in "marathonStartFollowers" existing_stats
     else Ok false) = Ok recorded
    ∧ (if recorded
       then start ← py_getitem existing_stats "marathonStartFollowers";
            py_int_sub follower_count start
       else Ok (VInt 0)) = Ok followers
    ∧ (if recorded
       then py_getitem existing_stats "marathonStartFollowers"
       else Ok (VInt follower_count)) = Ok start
    ∧ stats_field "marathonFollowers" (stats p) = Some followers
    ∧ stats_field "marathonStartFollowers" (stats p) = Some start
    ∧ stats_field "totalFollowers" (stats p) = Some (VInt follower_count)
    ∧ field "topChatters" (stats p)
      = Some (default (VList []) (field "topChatters" existing_stats))
    ∧ stats_field "marathonSubs" (stats p)
      = Some (default (VInt 0) (stats_field "marathonSubs" existing_stats))
    ∧ field "marathonStartFollowers" (stats p) = None
    ∧ ∃ d block, stats p = VDict d ∧ d !! "stats" = Some (VDict block).
Proof.
  unfold main_stats. intros H.
  apply bind_Ok in H as (recorded & Hrec & H).
  apply bind_Ok in H as ([followers start] & Hbase & H).
  apply bind_Ok in H as (subs & _ & H).
  apply bind_Ok in H as (bits & _ & H).
  apply bind_Ok in H as (chatters & Hchat & H).
  apply bind_Ok in H as (tsubs & _ & H).
  apply bind_Ok in H as (tbits & _ & H).
  apply bind_Ok in H as (msubs & Hmsubs & H).
  injection H as <-. simpl.
  exists recorded, followers, start.
  split; [done|].
  apply carried_field in Hchat as ->.
  apply carried_stats_field in Hmsubs as ->.
  split.
  { destruct recorded; [|by injection Hbase as <- <-].
    apply bind_Ok in Hbase as (s0 & Hs0 & Hbase).
    apply bind_Ok in Hbase as (f0 & Hf0 & Hbase).
    apply bind_Ok in Hbase as (s1 & Hs1 & [= <- <-]).
    by rewrite Hs0. }
  split.
  { destruct recorded; [|by injection Hbase as <- <-].
    apply bind_Ok in Hbase as (s0 & Hs0 & Hbase).
    apply bind_Ok in Hbase as (f0 & Hf0 & Hbase).
    by apply bind_Ok in Hbase as (s1 & Hs1 & [= <- <-]). }
  repeat (split; [done|]). eauto.
Qed.

Lemma top_ok_formats (top : value) :
  top_ok top →
  ∃ leaderboard,
    (users ← py_iter top; format_leaderboard users "amount") = Ok leaderboard.
Proof.
  intros (users & -> & Hfin). simpl. unfold format_leaderboard.
  destruct (leaderboard_loop_total "amount" users [] Hfin) as [lb ->].
  simpl. eauto.
Qed.

Lemma block_ok_get (d : gmap string value) (k1 k2 : string) (dflt : value) :
  block_ok (d !! k1) →
  ∃ x, (block ← py_get (VDict d) k1 (VDict ∅); py_get block k2 dflt) = Ok x.
Proof.
  simpl. destruct (d !! k1) as [[| | | | | |block]|]; simpl; try done; eauto.
Qed.

(** The merge succeeds on well-formed fetched values and a readable saved
    document. *)
Lemma main_stats_total follower_count is_live current_day se_stats top_subs
    top_cheers updated existing_stats :
  fetched_ok se_stats top_subs top_cheers →
  prior_ok existing_stats →
  ∃ p, main_stats follower_count is_live current_day se_stats top_subs
         top_cheers updated existing_stats = Ok p.
Proof.
  intros ((ds & -> & Hsubs & Hcheers) & Htop_subs & Htop_cheers) Hprior.
  unfold main_stats.
  destruct (top_ok_formats _ Htop_subs) as [subs ->].
  destruct (top_ok_formats _ Htop_cheers) as [bits ->].
  destruct (block_ok_get ds "subscribers" "count" (VInt 0) Hsubs) as [tsubs ->].
  destruct (block_ok_get ds "cheers" "amount" (VInt 0) Hcheers) as [tbits ->].
  destruct Hprior as [->|(d & -> & Hblock & Hbase)].
  - simpl. eauto.
  - rewrite recorded_dict.
    destruct (block_ok_get d "stats" "marathonSubs" (VInt 0) Hblock)
      as [msubs Hmsubs].
    destruct (truthy (VDict d)); simpl in *; [rewrite Hmsubs|];
      (destruct (d !! "marathonStartFollowers") as [[| |n| | | |]|];
         simpl in *; try done; eauto).
Qed.

(** C2. When there is no saved document, or the saved document has no
    [marathonStartFollowers] entry, the merge takes the run for the
    baseline: every document it produces has [marathonStartFollowers]
    equal to the fetched follower count and [marathonFollowers] equal to
    0; and it does produce a document when the fetched values are
    well-formed and the saved document is readable. *)
Theorem main_stats_baseline follower_count is_live current_day se_stats
    top_subs top_cheers updated existing_stats :
  existing_stats = VNone
  ∨ (∃ d, existing_stats = VDict d ∧ d !! "marathonStartFollowers" = None) →
  (fetched_ok se_stats top_subs top_cheers → prior_ok existing_stats →
   ∃ p, main_stats follower_count is_live current_day se_stats top_subs
          top_cheers updated existing_stats = Ok p)
  ∧ ∀ p, main_stats follower_count is_live current_day se_stats top_subs
           top_cheers updated existing_stats = Ok p →
         stats_field "marathonStartFollowers" (stats p)
         = Some (VInt follower_count)
         ∧ stats_field "marathonFollowers" (stats p) = Some (VInt 0).
Proof.
  intros Hlacks. split; [apply main_stats_total|].
  intros p (recorded & followers & start & Hrec & Hf & Hs & -> & -> & _)
    %main_stats_inv.
  assert (recorded = false) as ->.
  { destruct Hlacks as [->|(d & -> & Hd)].
    - by injection Hrec as <-.
    - rewrite recorded_dict, Hd in Hrec. by injection Hrec as <-. }
  by injection Hf as <-; injection Hs as <-.
Qed.

Lemma main_stats_baseline_witness :
  ∃ p, main_stats 500 false 1 (VDict ∅) (VList []) (VList []) "now" VNone
       = Ok p
       ∧ stats_field "marathonStartFollowers" (stats p) = Some (VInt 500)
       ∧ stats_field "marathonFollowers" (stats p) = Some (VInt 0).
Proof.
  destruct (main_stats_baseline 500 false 1 (VDict ∅) (VList []) (VList [])
              "now" VNone (or_introl eq_refl)) as [Hruns Hfields].
  destruct Hruns as [p Hp].
  - split; [by exists ∅|split; by exists []].
  - by left.
  - exists p. split; [exact Hp|]. apply Hfields, Hp.
Defined.

(** The branch of lines 158-159, which only a [marathonStartFollowers]
    entry at the top level of the saved document reaches: every document
    the merge produces then carries that entry unchanged in its
    statistics and has for [marathonFollowers] the fetched follower count
    minus it, not clamped. *)
Lemma main_stats_delta follower_count is_live current_day se_stats
    top_subs top_cheers updated (d : gmap string value) (baseline : value) :
  d !! "marathonStartFollowers" = Some baseline →
  (∀ p, main_stats follower_count is_live current_day se_stats top_subs
          top_cheers updated (VDict d) = Ok p →
        stats_field "marathonStartFollowers" (stats p) = Some baseline
        ∧ ∃ followers,
            py_int_sub follower_count baseline = Ok followers
            ∧ stats_field "marathonFollowers" (stats p) = Some followers)
  ∧ ∀ n, baseline = VInt n →
      (fetched_ok se_stats top_subs top_cheers → block_ok (d !! "stats") →
       ∃ p, main_stats follower_count is_live current_day se_stats top_subs
              top_cheers updated (VDict d) = Ok p)
      ∧ ∀ p, main_stats follower_count is_live current_day se_stats top_subs
               top_cheers updated (VDict d) = Ok p →
             stats_field "marathonStartFollowers" (stats p) = Some (VInt n)
             ∧ stats_field "marathonFollowers" (stats p)
               = Some (VInt (follower_count - n)).
Proof.
  intros Hd.
  assert (∀ p, main_stats follower_count is_live current_day se_stats top_subs
                 top_cheers updated (VDict d) = Ok p →
               stats_field "marathonStartFollowers" (stats p) = Some baseline
               ∧ ∃ followers,
                   py_int_sub follower_count baseline = Ok followers
                   ∧ stats_field "marathonFollowers" (stats p) = Some followers)
    as Hcarried.
  { intros p (recorded & followers & start & Hrec & Hf & Hs & -> & -> & _)
      %main_stats_inv.
    rewrite recorded_dict, Hd in Hrec. injection Hrec as <-.
    simpl in Hf, Hs. rewrite Hd in Hf, Hs. simpl in Hf.
    injection Hs as <-. eauto. }
  split; [exact Hcarried|].
  intros n ->. split.
  - intros Hfetched Hblock. apply main_stats_total; [done|].
    right. exists d. by rewrite Hd.
  - intros p (-> & followers & [= <-] & ->)%Hcarried. done.
Qed.

Lemma main_stats_delta_witness :
  let prior : gmap string value := {[ "marathonStartFollowers" := VInt 500 ]} in
  (∃ p, main_stats 530 false 1 (VDict ∅) (VList []) (VList []) "now"
          (VDict prior) = Ok p
        ∧ stats_field "marathonStartFollowers" (stats p) = Some (VInt 500)
        ∧ stats_field "marathonFollowers" (stats p) = Some (VInt 30))
  ∧ (∃ p, main_stats 400 false 1 (VDict ∅) (VList []) (VList []) "now"
            (VDict prior) = Ok p
          ∧ stats_field "marathonStartFollowers" (stats p) = Some (VInt 500)
          ∧ stats_field "marathonFollowers" (stats p) = Some (VInt (-100))).
Proof.
  intros prior.
  assert (prior !! "marathonStartFollowers" = Some (VInt 500)) as Hd by done.
  assert (fetched_ok (VDict ∅) (VList []) (VList [])) as Hfetched
    by (split; [by exists ∅|split; by exists []]).
  split.
  - destruct (main_stats_delta 530 false 1 (VDict ∅) (VList []) (VList [])
                "now" prior (VInt 500) Hd) as [_ Hint].
    destruct (Hint 500 eq_refl) as [Hruns Hfields].
    destruct (Hruns Hfetched) as [p Hp]; [done|].
    exists p. split; [exact Hp|]. apply Hfields, Hp.
  - destruct (main_stats_delta 400 false 1 (VDict ∅) (VList []) (VList [])
                "now" prior (VInt 500) Hd) as [_ Hint].
    destruct (Hint 500 eq_refl) as [Hruns Hfields].
    destruct (Hruns Hfetched) as [p Hp]; [done|].
    exists p. split; [exact Hp|]. apply Hfields, Hp.
Defined.

(** C3, where the code departs from it.  A saved document of the shape
    the program writes records the baseline 500 in its [stats] block.
    Merging 530 fetched followers with it gives the baseline 530 and the
    gain 0, not the baseline 500 carried forward and the gain 30: line 157
    looks for [marathonStartFollowers] at the top level of the document,
    where a saved document never has it.  The branch of lines 158-159
    does carry 500 forward and give 30, on a document that has the entry
    at the top level, which shows what was meant. *)
Theorem main_stats_ignores_recorded_baseline :
  let saved :=
    VDict {[ "lastUpdated" := VStr "2025-10-27T00:00:00+00:00";
             "marathonStart" := VStr MARATHON_START;
             "marathonEnd" := VStr MARATHON_END;
             "currentDay" := VInt 1;
             "isLive" := VBool false;
             "stats" := VDict {[ "totalFollowers" := VInt 500;
                                 "marathonFollowers" := VInt 0;
                                 "marathonStartFollowers" := VInt 500;
                                 "totalSubs" := VInt 0;
                                 "marathonSubs" := VInt 0;
                                 "totalBits" := VInt 0 ]};
             "topSubGifters" := VList [];
             "topBitDonors" := VList [];
             "topChatters" := VList [] ]} in
  let top_level := VDict {[ "marathonStartFollowers" := VInt 500 ]} in
  stats_field "marathonStartFollowers" saved = Some (VInt 500)
  ∧ (∃ p, main_stats 530 false 1 (VDict ∅) (VList []) (VList []) "now" saved
          = Ok p
          ∧ stats_field "marathonStartFollowers" (stats p) = Some (VInt 530)
          ∧ stats_field "marathonFollowers" (stats p) = Some (VInt 0))
  ∧ (∃ p, main_stats 530 false 1 (VDict ∅) (VList []) (VList []) "now"
            top_level = Ok p
          ∧ stats_field "marathonStartFollowers" (stats p) = Some (VInt 500)
          ∧ stats_field "marathonFollowers" (stats p) = Some (VInt 30)).
Proof. split; [by vm_compute|]. split; eexists; by vm_compute. Qed.

(** C7. The merge has no source for [topChatters] and [marathonSubs]:
    whatever was fetched, every document it produces has for
    [topChatters] the saved document's [topChatters], or the empty list
    when there is none, and for [marathonSubs] the [marathonSubs] of the
    saved document's statistics, or 0 when there is none; and it does
    produce a document when the fetched values are well-formed and the
    saved document is readable. *)
Theorem main_stats_carries_over follower_count is_live current_day se_stats
    top_subs top_cheers updated existing_stats :
  (fetched_ok se_stats top_subs top_cheers → prior_ok existing_stats →
   ∃ p, main_stats follower_count is_live current_day se_stats top_subs
          top_cheers updated existing_stats = Ok p)
  ∧ ∀ p, main_stats follower_count is_live current_day se_stats top_subs
           top_cheers updated existing_stats = Ok p →
         field "topChatters" (stats p)
         = Some (default (VList []) (field "topChatters" existing_stats))
         ∧ stats_field "marathonSubs" (stats p)
           = Some (default (VInt 0)
                     (stats_field "marathonSubs" existing_stats)).
Proof.
  split; [apply main_stats_total|].
  by intros p (_ & _ & _ & _ & _ & _ & _ & _ & _ & Hchat & Hsubs & _)
    %main_stats_inv.
Qed.

Lemma main_stats_carries_over_witness :
  let chatters :=
    VList [ VDict {[ "username" := VStr "x"; "amount" := VInt 5 ]} ] in
  let prior : gmap string value := {[ "topChatters" := chatters ]} in
  ∃ p, main_stats 530 true 2 (VDict ∅)
         (VList [ VDict {[ "name" := VStr "a"; "amount" := VInt 3 ]} ])
         (VList []) "now" (VDict prior) = Ok p
       ∧ field "topChatters" (stats p) = Some chatters
       ∧ stats_field "marathonSubs" (stats p) = Some (VInt 0).
Proof.
  intros chatters prior.
  destruct (main_stats_carries_over 530 true 2 (VDict ∅)
              (VList [ VDict {[ "name" := VStr "a"; "amount" := VInt 3 ]} ])
              (VList []) "now" (VDict prior)) as [Hruns Hfields].
  destruct Hruns as [p Hp].
  - split; [by exists ∅|]. split; [|by exists []].
    exists [ {[ "name" := VStr "a"; "amount" := VInt 3 ]} ].
    split; [done|]. by repeat constructor.
  - right. by exists prior.
  - exists p. split; [exact Hp|]. apply Hfields, Hp.
Defined.

(** C10. A document the merge itself produced has its
    [marathonStartFollowers] inside the [stats] block and none at the top
    level, where the merge looks for it.  So with such a document as the
    saved one the merge takes the baseline branch: every document it
    produces has [marathonStartFollowers] equal to the fetched follower
    count and [marathonFollowers] equal to 0; and it does produce one when
    the fetched values are well-formed. *)
Theorem main_stats_own_document
    follower_count0 is_live0 current_day0 se_stats0 top_subs0 top_cheers0
    updated0 existing_stats0 (p0 : processed)
    follower_count is_live current_day se_stats top_subs top_cheers updated :
  main_stats follower_count0 is_live0 current_day0 se_stats0 top_subs0
    top_cheers0 updated0 existing_stats0 = Ok p0 →
  field "marathonStartFollowers" (stats p0) = None
  ∧ is_Some (stats_field "marathonStartFollowers" (stats p0))
  ∧ (fetched_ok se_stats top_subs top_cheers →
     ∃ p, main_stats follower_count is_live current_day se_stats top_subs
            top_cheers updated (stats p0) = Ok p)
  ∧ ∀ p, main_stats follower_count is_live current_day se_stats top_subs
           top_cheers updated (stats p0) = Ok p →
         stats_field "marathonStartFollowers" (stats p)
         = Some (VInt follower_count)
         ∧ stats_field "marathonFollowers" (stats p) = Some (VInt 0).
Proof.
  intros (_ & _ & start0 & _ & _ & _ & _ & Hstart0 & _ & _ & _ & Htop
          & d0 & block0 & Hd0 & Hblock0)%main_stats_inv.
  rewrite Hd0 in *. simpl in Htop.
  split; [done|]. split; [by rewrite Hstart0|]. split.
  - intros Hfetched. apply main_stats_total; [done|].
    right. exists d0. by rewrite Hblock0, Htop.
  - intros p (recorded & followers & start & Hrec & Hf & Hs & -> & -> & _)
      %main_stats_inv.
    rewrite recorded_dict, Htop in Hrec. injection Hrec as <-.
    by injection Hf as <-; injection Hs as <-.
Qed.

Lemma main_stats_own_document_witness :
  ∃ p0 p,
    main_stats 500 false 1 (VDict ∅) (VList []) (VList []) "first" VNone
    = Ok p0
    ∧ main_stats 530 false 1 (VDict ∅) (VList []) (VList []) "second"
        (stats p0) = Ok p
    ∧ stats_field "marathonStartFollowers" (stats p0) = Some (VInt 500)
    ∧ stats_field "marathonStartFollowers" (stats p) = Some (VInt 530)
    ∧ stats_field "marathonFollowers" (stats p) = Some (VInt 0).
Proof.
  assert (fetched_ok (VDict ∅) (VList []) (VList [])) as Hfetched
    by (split; [by exists ∅|split; by exists []]).
  destruct (main_stats_total 500 false 1 (VDict ∅) (VList []) (VList [])
              "first" VNone Hfetched (or_introl eq_refl)) as [p0 Hp0].
  destruct (main_stats_own_document _ _ _ _ _ _ _ _ p0
              530 false 1 (VDict ∅) (VList []) (VList []) "second" Hp0)
    as (_ & _ & Hruns & Hfields).
  destruct (Hruns Hfetched) as [p Hp].
  exists p0, p. split; [exact Hp0|]. split; [exact Hp|].
  split; [|apply Hfields, Hp].
  revert Hp0. vm_compute. by intros [= <-].
Defined.

(** ** Runs *)

(** C1, where the code departs from it.  A first run with no saved
    document sees 500 followers and saves the baseline 500; a second run,
    reading the document the first one saved, sees 530 followers.  It
    saves the baseline 530 and the gain 0, not 500 and 30: the baseline is
    saved inside the [stats] block and looked up at the top level of the
    document, where it never is. *)
Theorem second_run_resets_baseline :
  let first :=
    {| environ := None; get := scripted "12345" "500" "1 hour";
       now_day := marathon_start; now_isoformat := "2025-10-27T00:00:00+00:00";
       now_date := "2025-10-27" |} in
  let second :=
    {| environ := None; get := scripted "12345" "530" "2 hours";
       now_day := marathon_start + 3600 * 1000000;
       now_isoformat := "2025-10-27T01:00:00+00:00";
       now_date := "2025-10-27" |} in
  let run1 := main first {| stats_file := None; daily_file := None |} in
  let run2 := main second run1.1 in
  run1.2 = Completed
  ∧ stats_file run1.1 ≫= stats_field "marathonStartFollowers"
    = Some (VInt 500)
  ∧ stats_file run1.1 ≫= stats_field "marathonFollowers" = Some (VInt 0)
  ∧ run2.2 = Completed
  ∧ stats_file run2.1 ≫= stats_field "totalFollowers" = Some (VInt 530)
  ∧ stats_file run2.1 ≫= stats_field "marathonStartFollowers"
    = Some (VInt 530)
  ∧ stats_file run2.1 ≫= stats_field "marathonFollowers" = Some (VInt 0).
Proof. by vm_compute. Qed.

(** ** The daily log *)

Lemma day_key_3 : day_key 3 = "day3".
Proof. reflexivity. Qed.

(** The key of a day is ["day"] followed by the decimal writing of the
    day; here are the keys of the 28 days. *)
Lemma day_key_decimal (N : Z) : day_key N = "day" +:+ pretty N.
Proof. reflexivity. Qed.

Lemma py_or_dict (m : gmap string value) :
  py_or (VDict m) (VDict ∅) = VDict m.
Proof.
  unfold py_or. simpl. case_bool_decide as Hm; simpl; [by subst m|done].
Qed.

Lemma main_daily_dict (current_day : Z) (date : string)
    (m : gmap string value) :
  main_daily current_day date (VDict m)
  = Ok (VDict (if bool_decide (is_Some (m !! day_key current_day)) then m
               else <[day_key current_day := new_day date]> m)).
Proof.
  unfold main_daily. rewrite py_or_dict. simpl. by case_bool_decide.
Qed.

(** C8. On a daily log [m] and the day [N], the updater returns the log
    [m'] that is [m] when [m] has the key ["day<N>"], the word "day"
    followed by the decimal writing of [N], and otherwise [m] with, under
    that key, a record of today's date and three empty lists.  Running it
    again on [m'] for the same day, at whatever date, returns [m'] itself;
    every entry of [m] is in [m'] as it was; and a missing log file is
    taken for the empty log.  The keys of the days 1 to 28, the days the
    program computes, are "day1" to "day28". *)
Theorem main_daily_idempotent (m : gmap string value) (N : Z)
    (date date' : string) :
  ∃ m' : gmap string value,
    main_daily N date (VDict m) = Ok (VDict m')
    ∧ m' = (if bool_decide (is_Some (m !! ("day" +:+ pretty N))) then m
            else <["day" +:+ pretty N := new_day date]> m)
    ∧ new_day date
      = VDict {[ "date" := VStr date; "subGifters" := VList [];
                 "bitDonors" := VList []; "chatters" := VList [] ]}
    ∧ main_daily N date' (VDict m') = Ok (VDict m')
    ∧ m ⊆ m'
    ∧ is_Some (m' !! ("day" +:+ pretty N))
    ∧ main_daily N date (load_existing_data None)
      = main_daily N date (VDict ∅)
    ∧ day_key N = "day" +:+ pretty N
    ∧ day_key <$> seqZ 1 28
      = [ "day1"; "day2"; "day3"; "day4"; "day5"; "day6"; "day7"; "day8";
          "day9"; "day10"; "day11"; "day12"; "day13"; "day14"; "day15";
          "day16"; "day17"; "day18"; "day19"; "day20"; "day21"; "day22";
          "day23"; "day24"; "day25"; "day26"; "day27"; "day28" ].
Proof.
  rewrite <- !day_key_decimal.
  assert (day_key <$> seqZ 1 28
          = [ "day1"; "day2"; "day3"; "day4"; "day5"; "day6"; "day7"; "day8";
              "day9"; "day10"; "day11"; "day12"; "day13"; "day14"; "day15";
              "day16"; "day17"; "day18"; "day19"; "day20"; "day21"; "day22";
              "day23"; "day24"; "day25"; "day26"; "day27"; "day28" ])
    as Hkeys by (by vm_compute).
  assert (main_daily N date (load_existing_data None)
          = main_daily N date (VDict ∅)) as Habsent
    by (unfold main_daily; by rewrite py_or_dict).
  eexists. split; [apply main_daily_dict|]. split; [done|]. split; [done|].
  rewrite main_daily_dict.
  destruct (m !! day_key N) as [v|] eqn:Hkey.
  - rewrite (bool_decide_true (is_Some (Some v))) by done.
    rewrite Hkey, (bool_decide_true (is_Some (Some v))) by done.
    split; [done|]. split; [reflexivity|]. by split.
  - rewrite (bool_decide_false (is_Some None)) by (by intros [? ?]).
    rewrite bool_decide_true by (by rewrite lookup_insert_eq).
    split; [done|]. split; [by apply insert_subseteq|].
    split; [by rewrite lookup_insert_eq|done].
Qed.

(** ** A whole first run

    No saved document; 1000 followers, 10 subscribers, 200 bits, and the
    top subscribers a with 3 and b with 7. *)
Example first_run_scenario :
  let se_stats :=
    VDict {[ "subscribers" := VDict {[ "count" := VInt 10 ]};
             "cheers" := VDict {[ "amount" := VInt 200 ]} ]} in
  let top_subs :=
    VList [ VDict {[ "name" := VStr "a"; "amount" := VInt 3 ]};
            VDict {[ "name" := VStr "b"; "amount" := VInt 7 ]} ] in
  ∃ p, main_stats 1000 false 1 se_stats top_subs (VList []) "now" VNone = Ok p
       ∧ field "topSubGifters" (stats p)
         = Some (VList [ VDict {[ "username" := VStr "b"; "amount" := VInt 7 ]};
                         VDict {[ "username" := VStr "a"; "amount" := VInt 3 ]} ])
       ∧ stats_field "marathonFollowers" (stats p) = Some (VInt 0)
       ∧ stats_field "marathonStartFollowers" (stats p) = Some (VInt 1000)
       ∧ stats_field "totalSubs" (stats p) = Some (VInt 10)
       ∧ stats_field "totalBits" (stats p) = Some (VInt 200).
Proof. eexists. by vm_compute. Qed.

(** * Further properties *)

(** ** Strings *)

Lemma string_app_assoc (a b c : string) : (a +:+ b) +:+ c = a +:+ (b +:+ c).
Proof.
  induction a as [|x a IH]; [done|].
  change (String x ((a +:+ b) +:+ c) = String x (a +:+ (b +:+ c))).
  by rewrite IH.
Qed.

Lemma string_app_nil_r (a : string) : a +:+ "" = a.
Proof.
  induction a as [|x a IH]; [done|].
  change (String x (a +:+ "") = String x a). by rewrite IH.
Qed.

Lemma rev_app_spec (s1 s2 : string) :
  String.rev_app s1 s2 = String.rev s1 +:+ s2.
Proof.
  revert s2. induction s1 as [|x s1 IH]; intros s2; [done|].
  unfold String.rev. simpl. rewrite (IH (String x s2)), (IH (String x "")).
  by rewrite string_app_assoc.
Qed.

Lemma rev_cons (x : ascii) (s : string) :
  String.rev (String x s) = String.rev s +:+ String x "".
Proof. unfold String.rev at 1. simpl. apply rev_app_spec. Qed.

Lemma rev_app_distr (s1 s2 : string) :
  String.rev (s1 +:+ s2) = String.rev s2 +:+ String.rev s1.
Proof.
  induction s1 as [|x s1 IH].
  - change ("" +:+ s2) with s2. by rewrite string_app_nil_r.
  - change (String x s1 +:+ s2) with (String x (s1 +:+ s2)).
    by rewrite !rev_cons, IH, string_app_assoc.
Qed.

Lemma rev_involutive (s : string) : String.rev (String.rev s) = s.
Proof.
  induction s as [|x s IH]; [done|].
  by rewrite rev_cons, rev_app_distr, IH.
Qed.

Lemma list_ascii_app (s1 s2 : string) :
  list_ascii_of_string (s1 +:+ s2)
  = list_ascii_of_string s1 ++ list_ascii_of_string s2.
Proof.
  induction s1 as [|x s1 IH]; [done|].
  change (String x s1 +:+ s2) with (String x (s1 +:+ s2)).
  simpl. by rewrite IH.
Qed.

Lemma list_ascii_rev (s : string) :
  list_ascii_of_string (String.rev s) = reverse (list_ascii_of_string s).
Proof.
  induction s as [|x s IH]; [done|].
  rewrite rev_cons, list_ascii_app, IH. simpl. by rewrite reverse_cons.
Qed.

Lemma blank_rev (s : string) : blank (String.rev s) = blank s.
Proof.
  unfold blank. rewrite list_ascii_rev.
  apply eq_true_iff_eq. rewrite !forallb_forall.
  setoid_rewrite <- list_elem_of_In. by setoid_rewrite elem_of_reverse.
Qed.

Lemma lstrip_blank_app (ws s : string) :
  blank ws = true → lstrip (ws +:+ s) = lstrip s.
Proof.
  unfold blank. induction ws as [|x ws IH]; [done|].
  simpl. intros [Hx Hws]%andb_true_iff.
  change (String x ws +:+ s) with (String x (ws +:+ s)).
  simpl. rewrite Hx. by apply IH.
Qed.

Lemma lstrip_unframed (s : string) : unframed s = true → lstrip s = s.
Proof. destruct s as [|c s]; [done|]. simpl. by intros ->%negb_true_iff. Qed.

(** What [strip] does to a text framed by white space, when the text
    itself neither starts nor ends with white space. *)
Lemma strip_framed (ws1 ws2 core : string) :
  blank ws1 = true → blank ws2 = true →
  unframed core = true → unframed (String.rev core) = true →
  strip (ws1 +:+ core +:+ ws2) = core.
Proof.
  intros Hws1 Hws2 Hcore Hrcore. unfold strip.
  rewrite lstrip_blank_app by done.
  destruct core as [|c core].
  - change ("" +:+ ws2) with ws2.
    rewrite <- (string_app_nil_r ws2), lstrip_blank_app by done. done.
  - change (String c core +:+ ws2) with (String c (core +:+ ws2)).
    rewrite (lstrip_unframed (String c _)) by done.
    change (String c (core +:+ ws2)) with (String c core +:+ ws2).
    rewrite rev_app_distr, lstrip_blank_app by (by rewrite blank_rev).
    by rewrite lstrip_unframed, rev_involutive.
Qed.

Lemma ascii_digits_app (s1 s2 : string) :
  ascii_digits (s1 +:+ s2) = ascii_digits s1 && ascii_digits s2.
Proof. unfold ascii_digits. by rewrite list_ascii_app, forallb_app. Qed.

Lemma ascii_digits_rev (s : string) :
  ascii_digits (String.rev s) = ascii_digits s.
Proof.
  unfold ascii_digits. rewrite list_ascii_rev.
  apply eq_true_iff_eq. rewrite !forallb_forall.
  setoid_rewrite <- list_elem_of_In. by setoid_rewrite elem_of_reverse.
Qed.

Lemma ascii_digits_unframed (s : string) :
  ascii_digits s = true → unframed s = true.
Proof.
  destruct s as [|c s]; [done|].
  unfold ascii_digits, unframed, isspace. simpl.
  intros [Hc _]%andb_true_iff. lia.
Qed.

Lemma ascii_digits_isdigit (s : string) :
  s ≠ "" → ascii_digits s = true → isdigit s = true.
Proof.
  intros Hs Hd. destruct s as [|c s]; [done|].
  unfold isdigit. unfold ascii_digits in Hd.
  rewrite forallb_forall in *. intros x Hx. specialize (Hd x Hx).
  unfold isdigit_char. simpl in Hd. lia.
Qed.

Lemma pretty_N_char_code (d : N) :
  (d < 10)%N → Z.of_nat (nat_of_ascii (pretty_N_char d)) = 48 + Z.of_N d.
Proof.
  intros Hd.
  assert (d = 0 ∨ d = 1 ∨ d = 2 ∨ d = 3 ∨ d = 4 ∨ d = 5 ∨ d = 6 ∨ d = 7
          ∨ d = 8 ∨ d = 9)%N as Hcases by lia.
  by repeat destruct Hcases as [->|Hcases]; [..|subst d].
Qed.

(** The decimal digits [pretty] writes, in front of [s]. *)
Lemma pretty_N_go_digits (x : N) (s : string) :
  ∃ t, pretty_N_go x s = t +:+ s
       ∧ ascii_digits t = true ∧ ((0 < x)%N → t ≠ "").
Proof.
  revert s. induction (N.lt_wf_0 x) as [x _ IH]; intros s.
  destruct (decide (0 < x)%N) as [Hx|Hx].
  - rewrite pretty_N_go_step by done.
    destruct (IH (x `div` 10)%N ltac:(by apply N.div_lt)
                (String (pretty_N_char (x `mod` 10)) s)) as (t & -> & Ht & _).
    exists (t +:+ String (pretty_N_char (x `mod` 10)) "").
    rewrite string_app_assoc. split; [done|].
    rewrite ascii_digits_app, Ht. split.
    + unfold ascii_digits. simpl.
      rewrite pretty_N_char_code by (by apply N.mod_lt).
      pose proof (N.mod_lt x 10 ltac:(done)).
      rewrite andb_true_r, andb_true_iff, !Z.leb_le.
      generalize dependent (x `mod` 10)%N. intros; lia.
    + intros _. by destruct t.
  - assert (x = 0%N) as -> by lia. exists "". by rewrite pretty_N_go_0.
Qed.

Lemma int_of_digits_pretty_go (x : N) (s : string) :
  int_of_digits 0 (pretty_N_go x s) = int_of_digits (Z.of_N x) s.
Proof.
  revert s. induction (N.lt_wf_0 x) as [x _ IH]; intros s.
  destruct (decide (0 < x)%N) as [Hx|Hx].
  - rewrite pretty_N_go_step, IH by (done || by apply N.div_lt).
    simpl. rewrite pretty_N_char_code by (by apply N.mod_lt).
    pose proof (N.mod_lt x 10 ltac:(done)) as Hmod.
    replace ((48 <=? 48 + Z.of_N (x `mod` 10))
             && (48 + Z.of_N (x `mod` 10) <=? 57)) with true
      by (symmetry; rewrite andb_true_iff, !Z.leb_le;
          generalize dependent (x `mod` 10)%N; intros; lia).
    f_equal. pose proof (N.div_mod x 10 ltac:(done)) as Hdm.
    generalize dependent (x `mod` 10)%N.
    generalize dependent (x `div` 10)%N. intros; lia.
  - assert (x = 0%N) as -> by lia. by rewrite pretty_N_go_0.
Qed.

Lemma pretty_N_ascii_digits (n : N) :
  pretty n ≠ "" ∧ ascii_digits (pretty n) = true.
Proof.
  unfold pretty, pretty_N. case_decide as Hn; [done|].
  destruct (pretty_N_go_digits n "") as (t & -> & Ht & Hne).
  rewrite string_app_nil_r. split; [apply Hne; lia|done].
Qed.

Lemma int_of_str_pretty (n : N) :
  Z.of_nat (String.length (pretty n)) ≤ max_str_digits →
  int_of_str (pretty n) = Ok (Z.of_N n).
Proof.
  intros Hlen. unfold int_of_str.
  destruct (Z.ltb_spec max_str_digits (Z.of_nat (String.length (pretty n))));
    [lia|].
  unfold pretty, pretty_N. case_decide as Hn; [by subst n|].
  by rewrite int_of_digits_pretty_go.
Qed.

Lemma int_of_digits_ge (s : string) (acc n : Z) :
  0 ≤ acc → int_of_digits acc s = Ok n → acc ≤ n.
Proof.
  revert acc. induction s as [|c s IH]; intros acc Hacc; simpl.
  - intros [= <-]. lia.
  - destruct (_ && _) eqn:Hc; [|done].
    intros H%IH; lia.
Qed.

(** ** The follower count *)

Lemma follower_count_nonneg (get : requests) (name : string) :
  0 ≤ get_twitch_follower_count get name.
Proof.
  unfold get_twitch_follower_count.
  destruct (get _) as [r|]; [|done].
  destruct (status_code r =? 200); [|done].
  destruct (isdigit _); [|done].
  unfold int_of_str. destruct (_ <? _); [done|].
  destruct (int_of_digits 0 _) as [n|] eqn:Hn; [|done].
  by apply int_of_digits_ge in Hn.
Qed.

(** X1. The follower count is never negative, whatever the service
    answers. *)
Theorem get_twitch_follower_count_nonneg (get : requests) (name : string) :
  0 ≤ get_twitch_follower_count get name.
Proof. apply follower_count_nonneg. Qed.

(** X2. When the service answers 200 with the decimal writing of a
    natural number, of at most 4300 digits (more is a [ValueError] of
    [int], hence the count 0) and possibly framed by white space (a
    trailing newline, say), the follower count is that number. *)
Theorem get_twitch_follower_count_decimal (get : requests) (name : string)
    (r : response) (n : N) (ws1 ws2 : string) :
  get ("https://decapi.me/twitch/followcount/" +:+ name) = Some r →
  status_code r = 200 →
  text r = ws1 +:+ pretty n +:+ ws2 →
  blank ws1 = true → blank ws2 = true →
  Z.of_nat (String.length (pretty n)) ≤ 4300 →
  get_twitch_follower_count get name = Z.of_N n.
Proof.
  intros Hget Hstatus Htext Hws1 Hws2 Hlen.
  unfold get_twitch_follower_count. rewrite Hget, Hstatus, Htext. simpl.
  destruct (pretty_N_ascii_digits n) as [Hne Hdigits].
  rewrite strip_framed; [|done|done|by apply ascii_digits_unframed|].
  - by rewrite ascii_digits_isdigit, int_of_str_pretty.
  - apply ascii_digits_unframed. by rewrite ascii_digits_rev.
Qed.

Lemma get_twitch_follower_count_decimal_witness :
  get_twitch_follower_count (scripted "12345" " 1234
" "1 hour") "marlon" = 1234.
Proof.
  apply (get_twitch_follower_count_decimal _ "marlon"
           {| status_code := 200; text := " 1234
"; json := None |} 1234%N " " "
"); (reflexivity || by vm_compute).
Defined.

(** ** The top lists *)

Lemma substring_length_le (n : nat) (s : string) :
  (length (list_ascii_of_string (String.substring 0 n s)) ≤ n)%nat.
Proof.
  revert s. induction n as [|n IH]; intros [|c s]; simpl; try lia.
  specialize (IH s). lia.
Qed.

Lemma top_data_items (get : requests)
    (channel_id data_type : string) :
  ∃ items,
    py_iter (get_streamelements_top_data get channel_id data_type) = Ok items
    ∧ (length items ≤ 10)%nat.
Proof.
  unfold get_streamelements_top_data.
  destruct (get _) as [r|]; [|by exists []; simpl; split; [|lia]].
  destruct (status_code r =? 200); [|by exists []; simpl; split; [|lia]].
  destruct (json r) as [data|]; [|by exists []; simpl; split; [|lia]].
  destruct (py_get data "users" (VList [])) as [users|e] eqn:Hget; simpl;
    [|by exists []; simpl; split; [|lia]].
  destruct users as [| | | |s|l|]; simpl;
    try (by exists []; simpl; split; [|lia]).
  - eexists. split; [done|].
    rewrite length_fmap. apply substring_length_le.
  - eexists. split; [done|]. rewrite length_take. lia.
Qed.

(** X3. Whatever the service answers, the top list a fetch returns can
    be iterated over and has at most 10 items. *)
Theorem get_streamelements_top_data_at_most_10 (get : requests)
    (channel_id data_type : string) :
  ∃ items,
    py_iter (get_streamelements_top_data get channel_id data_type) = Ok items
    ∧ (length items ≤ 10)%nat.
Proof. apply top_data_items. Qed.

(** ** More on the leaderboard formatter *)

(** The loop gets through a list only when every item is a dict. *)
Lemma leaderboard_loop_dicts amount_key (users : list value)
    (leaderboard result : list entry) :
  leaderboard_loop amount_key users leaderboard = Ok result →
  ∃ ds : list (gmap string value), users = VDict <$> ds.
Proof.
  revert leaderboard. induction users as [|u users IH]; intros leaderboard.
  - by exists [].
  - simpl. intros (lb & Hlb & (ds & ->)%IH)%bind_Ok.
    destruct u as [| | | | | |d]; try done.
    by exists (d :: ds).
Qed.

Lemma integer_part_nonneg (m : positive) (e k : Z) :
  integer_part m e k → 0 ≤ k.
Proof.
  unfold integer_part. case_bool_decide as He.
  - intros ->. apply Z.mul_nonneg_nonneg; [lia|]. by apply Z.pow_nonneg.
  - intros [_ Hk].
    assert (0 < 2 ^ (- e)) by (apply Z.pow_pos_nonneg; lia). nia.
Qed.

Lemma listed_as_nonneg amount_key (d : gmap string value) (e : entry) :
  counted (user_amount amount_key d) = true →
  listed_as amount_key d e →
  0 ≤ amount e ∧ truthy (username e) = true.
Proof.
  intros Hc [-> Ht]. split; [|apply resolve_username_truthy].
  destruct (user_amount amount_key d) as [|b|n|f| | |]; simpl in *; try done.
  - destruct b; lia.
  - case_bool_decide; [lia|done].
  - destruct f as [|[]| |[] m ex]; try done.
    by apply integer_part_nonneg in Ht.
Qed.

Lemma format_leaderboard_bounds (users : list value) (amount_key : string)
    (out : list entry) :
  format_leaderboard users amount_key = Ok out →
  Forall (λ e, 0 ≤ amount e ∧ truthy (username e) = true) out
  ∧ (length out ≤ length users)%nat.
Proof.
  unfold format_leaderboard.
  intros (lb & Hlb & [= <-])%bind_Ok.
  destruct (leaderboard_loop_dicts _ _ _ _ Hlb) as [ds ->].
  apply leaderboard_loop_listed in Hlb as (kept & -> & Hkept). simpl.
  split.
  - apply Forall_forall. intros e He%sorted_reverse_elem_of.
    revert e He. apply Forall_forall.
    clear -Hkept.
    remember (filter _ ds) as fs eqn:Hfs.
    assert (Forall (λ d, counted (user_amount amount_key d) = true) fs) as Hall.
    { subst fs. apply Forall_forall.
      intros d [Hd _]%list_elem_of_filter. by apply Is_true_true. }
    clear Hfs. induction Hkept as [|d e fs kept Hde _ IH]; [done|].
    apply Forall_cons in Hall as [Hd Hall].
    constructor; [by eapply listed_as_nonneg|by apply IH].
  - assert (length (sorted_reverse amount kept) = length kept) as ->.
    { clear. induction kept as [|x l IH]; simpl; [done|].
      rewrite <- IH. generalize (sorted_reverse amount l). clear.
      intros l. induction l as [|y l IH]; simpl; [done|].
      destruct (_ <? _); simpl; lia. }
    rewrite <- (Forall2_length _ _ _ Hkept), length_fmap.
    apply length_filter.
Qed.

(** X4. Every leaderboard the formatter returns, on any list of items
    and any amount key, has no negative amount (an amount can be 0) and
    no empty name, and is no longer than the list it was made from. *)
Theorem format_leaderboard_entries (users : list value) (amount_key : string)
    (out : list entry) :
  format_leaderboard users amount_key = Ok out →
  Forall (λ e, 0 ≤ amount e ∧ truthy (username e) = true) out
  ∧ (length out ≤ length users)%nat.
Proof. apply format_leaderboard_bounds. Qed.

Lemma format_leaderboard_entries_witness :
  let users :=
    [ VDict {[ "name" := VStr "a";
               "amount" := VFloat (S754_finite false 4503599627370496 (-53)) ]};
      VDict {[ "amount" := VInt (-4) ]};
      VDict {[ "username" := VStr "c"; "amount" := VBool true ]} ] in
  let out := [ {| username := VStr "c"; amount := 1 |};
               {| username := VStr "a"; amount := 0 |} ] in
  format_leaderboard users "amount" = Ok out
  ∧ Forall (λ e, 0 ≤ amount e ∧ truthy (username e) = true) out
  ∧ (length out ≤ length users)%nat.
Proof.
  intros users out.
  assert (format_leaderboard users "amount" = Ok out) as H by (by vm_compute).
  split; [exact H|]. exact (format_leaderboard_entries users "amount" out H).
Defined.

(** X5. An item that is not a dict stops the formatter with an
    [AttributeError], when the records before it got through (none of
    them has an infinite amount); no leaderboard is returned. *)
Theorem format_leaderboard_not_a_record (good : list (gmap string value))
    (bad : value) (rest : list value) (amount_key : string) :
  Forall (λ d, user_amount amount_key d ≠ VFloat (S754_infinity false)) good →
  (∀ d, bad ≠ VDict d) →
  format_leaderboard ((VDict <$> good) ++ bad :: rest) amount_key
  = Raise AttributeError.
Proof.
  intros Hgood Hbad. unfold format_leaderboard.
  assert (∀ leaderboard,
    leaderboard_loop amount_key ((VDict <$> good) ++ bad :: rest) leaderboard
    = Raise AttributeError) as ->; [|done].
  induction Hgood as [|d good Hd _ IH]; intros leaderboard; simpl.
  - destruct bad as [| | | | | |d]; try done. by destruct (Hbad d).
  - rewrite leaderboard_append_dict.
    destruct (counted (user_amount amount_key d)) eqn:Hc; simpl; [|apply IH].
    destruct (py_int_counted _ Hc Hd) as [n ->]. simpl. apply IH.
Qed.

Lemma format_leaderboard_not_a_record_witness :
  format_leaderboard
    [ VDict {[ "name" := VStr "a"; "amount" := VInt 3 ]}; VStr "b";
      VDict {[ "name" := VStr "c"; "amount" := VInt 7 ]} ] "amount"
  = Raise AttributeError.
Proof.
  apply (format_leaderboard_not_a_record
           [ {[ "name" := VStr "a"; "amount" := VInt 3 ]} ] (VStr "b")
           [ VDict {[ "name" := VStr "c"; "amount" := VInt 7 ]} ] "amount").
  - repeat constructor. by vm_compute.
  - intros d. discriminate.
Defined.

(** X6. The first record whose amount is the float infinity stops the
    formatter with an [OverflowError]: infinity is greater than zero and
    has no integer part. *)
Theorem format_leaderboard_infinite_amount (good : list (gmap string value))
    (bad : gmap string value) (rest : list value) (amount_key : string) :
  Forall (λ d, user_amount amount_key d ≠ VFloat (S754_infinity false)) good →
  bad !! amount_key = Some (VFloat (S754_infinity false)) →
  format_leaderboard ((VDict <$> good) ++ VDict bad :: rest) amount_key
  = Raise OverflowError.
Proof.
  intros Hgood Hbad. unfold format_leaderboard.
  assert (∀ leaderboard,
    leaderboard_loop amount_key ((VDict <$> good) ++ VDict bad :: rest)
      leaderboard = Raise OverflowError) as ->; [|done].
  induction Hgood as [|d good Hd _ IH]; intros leaderboard; simpl.
  - rewrite leaderboard_append_dict. unfold user_amount. by rewrite Hbad.
  - rewrite leaderboard_append_dict.
    destruct (counted (user_amount amount_key d)) eqn:Hc; simpl; [|apply IH].
    destruct (py_int_counted _ Hc Hd) as [n ->]. simpl. apply IH.
Qed.

Lemma format_leaderboard_infinite_amount_witness :
  format_leaderboard
    [ VDict {[ "name" := VStr "a"; "amount" := VInt 3 ]};
      VDict {[ "name" := VStr "b";
               "amount" := VFloat (S754_infinity false) ]} ] "amount"
  = Raise OverflowError.
Proof.
  apply (format_leaderboard_infinite_amount
           [ {[ "name" := VStr "a"; "amount" := VInt 3 ]} ]
           {[ "name" := VStr "b"; "amount" := VFloat (S754_infinity false) ]}
           [] "amount").
  - repeat constructor. by vm_compute.
  - reflexivity.
Defined.

(** X7. Records without the amount key give the empty leaderboard: the
    amount defaults to 0, which is not listed. *)
Theorem format_leaderboard_missing_key (users : list (gmap string value))
    (amount_key : string) :
  Forall (λ d, d !! amount_key = None) users →
  format_leaderboard (VDict <$> users) amount_key = Ok [].
Proof.
  intros Hmissing. unfold format_leaderboard.
  assert (leaderboard_loop amount_key (VDict <$> users) [] = Ok []) as ->;
    [|done].
  induction Hmissing as [|d users Hd _ IH]; simpl; [done|].
  rewrite leaderboard_append_dict. unfold user_amount. by rewrite Hd.
Qed.

Lemma format_leaderboard_missing_key_witness :
  format_leaderboard
    [ VDict {[ "name" := VStr "a"; "amount" := VInt 3 ]};
      VDict {[ "name" := VStr "b"; "amount" := VInt 7 ]} ] "total"
  = Ok [].
Proof.
  apply (format_leaderboard_missing_key
           [ {[ "name" := VStr "a"; "amount" := VInt 3 ]};
             {[ "name" := VStr "b"; "amount" := VInt 7 ]} ] "total").
  repeat constructor.
Defined.

(** X8. The formatter reads three entries of a record, [name], [username]
    and the amount: two lists of records that agree on these, record by
    record, format alike, whatever else the records hold. *)
Theorem format_leaderboard_reads_three (users1 users2 : list (gmap string value))
    (amount_key : string) :
  Forall2 (λ d1 d2, d1 !! "name" = d2 !! "name"
                    ∧ d1 !! "username" = d2 !! "username"
                    ∧ d1 !! amount_key = d2 !! amount_key) users1 users2 →
  format_leaderboard (VDict <$> users1) amount_key
  = format_leaderboard (VDict <$> users2) amount_key.
Proof.
  intros Hagree. unfold format_leaderboard.
  assert (∀ leaderboard,
    leaderboard_loop amount_key (VDict <$> users1) leaderboard
    = leaderboard_loop amount_key (VDict <$> users2) leaderboard) as ->;
    [|done].
  induction Hagree as [|d1 d2 users1 users2 (Hn & Hu & Ha) _ IH];
    intros leaderboard; simpl; [done|].
  rewrite !leaderboard_append_dict.
  unfold user_amount, resolve_username. rewrite Hn, Hu, Ha.
  destruct (counted _); simpl; [|apply IH].
  destruct (py_int _); simpl; [apply IH|done].
Qed.

Lemma format_leaderboard_reads_three_witness :
  format_leaderboard
    [ VDict {[ "name" := VStr "a"; "amount" := VInt 3; "rank" := VInt 1 ]} ]
    "amount"
  = format_leaderboard
      [ VDict {[ "name" := VStr "a"; "amount" := VInt 3 ]} ] "amount".
Proof.
  apply (format_leaderboard_reads_three
           [ {[ "name" := VStr "a"; "amount" := VInt 3; "rank" := VInt 1 ]} ]
           [ {[ "name" := VStr "a"; "amount" := VInt 3 ]} ] "amount").
  repeat constructor.
Defined.

(** ** More on the marathon day *)

Lemma parse_MARATHON_END : parse MARATHON_END = Ok marathon_end.
Proof. reflexivity. Qed.

(** X9. The marathon day never goes back as time goes on. *)
Theorem marathon_day_monotone (T now now' : Z) :
  now ≤ now' → marathon_day T now ≤ marathon_day T now'.
Proof.
  intros Hle. unfold marathon_day, timedelta_days.
  change day_us with 86400000000.
  assert ((now - T) / 86400000000 ≤ (now' - T) / 86400000000)
    by (apply Z.div_le_mono; lia).
  lia.
Qed.

Lemma marathon_day_monotone_witness :
  calculate_marathon_day (marathon_start + 5 * day_us)
  ≤ calculate_marathon_day (marathon_start + 9 * day_us).
Proof.
  apply (marathon_day_monotone marathon_start). by vm_compute.
Defined.

(** X10. Between the configured start and end of the marathon the day
    is the number of whole days elapsed plus one, with no clamping, and
    the clock has to reach the end for the elapsed days to exceed 27:
    the end is 28 days after the start. *)
Theorem calculate_marathon_day_in_window (now : Z) :
  marathon_start ≤ now < marathon_end →
  calculate_marathon_day now = timedelta_days now marathon_start + 1
  ∧ marathon_end = marathon_start + 28 * day_us.
Proof.
  intros Hnow. split; [|reflexivity].
  unfold calculate_marathon_day, marathon_day, timedelta_days.
  revert Hnow.
  change marathon_end with 1763942400000000.
  change marathon_start with 1761523200000000.
  change day_us with 86400000000.
  intros Hnow. Z.div_mod_to_equations. lia.
Qed.

Lemma calculate_marathon_day_in_window_witness :
  calculate_marathon_day (marathon_start + 10 * day_us + 5) = 11.
Proof.
  destruct (calculate_marathon_day_in_window (marathon_start + 10 * day_us + 5))
    as [-> _]; by vm_compute.
Defined.

(** ** More on the daily log *)

Lemma day_key_inj (N1 N2 : Z) : day_key N1 = day_key N2 → N1 = N2.
Proof.
  unfold day_key. intros H%(inj (String.app "day")). by apply (inj pretty).
Qed.

Lemma main_daily_again (N : Z) (date date' : string) (loaded log : value) :
  main_daily N date loaded = Ok log →
  main_daily N date' log = Ok log.
Proof.
  unfold main_daily.
  intros (present & Hin & H)%bind_Ok.
  destruct present.
  - injection H as <-.
    assert (truthy (py_or loaded (VDict ∅)) = true) as Htruthy.
    { unfold py_or in *. destruct (truthy loaded) eqn:Ht; [done|].
      simpl in Hin. rewrite lookup_empty in Hin.
      rewrite bool_decide_false in Hin by (by intros [? ?]). done. }
    assert (py_or (py_or loaded (VDict ∅)) (VDict ∅)
            = py_or loaded (VDict ∅)) as ->
      by (unfold py_or at 1; by rewrite Htruthy).
    by rewrite Hin.
  - destruct (py_or loaded (VDict ∅)) as [| | | | | |d]; try done.
    injection H as <-. rewrite py_or_dict. simpl.
    by rewrite bool_decide_true by (by rewrite lookup_insert_eq).
Qed.

(** X11. Whatever the daily file holds, when the updater returns a log,
    running it again on that log for the same day, at any date, returns
    the same log. *)
Theorem main_daily_stable (N : Z) (date date' : string) (loaded log : value) :
  main_daily N date loaded = Ok log →
  main_daily N date' log = Ok log.
Proof. apply main_daily_again. Qed.

Lemma main_daily_stable_witness :
  let log := VDict {[ "day3" := new_day "2025-10-29" ]} in
  main_daily 3 "2025-10-29" VNone = Ok log
  ∧ main_daily 3 "2025-10-30" log = Ok log.
Proof.
  intros log.
  assert (main_daily 3 "2025-10-29" VNone = Ok log) as H by (by vm_compute).
  split; [exact H|].
  exact (main_daily_stable 3 "2025-10-29" "2025-10-30" VNone log H).
Defined.

(** X12. A daily file that holds something else than a JSON object (and
    not [null], 0, [false] or an empty string or array, which are taken
    for the empty log) never gets a day record: the updater raises a
    [TypeError], or returns what the file holds, unchanged. *)
Theorem main_daily_not_a_dict (N : Z) (date : string) (loaded : value) :
  truthy loaded = true → (∀ d, loaded ≠ VDict d) →
  main_daily N date loaded = Raise TypeError
  ∨ main_daily N date loaded = Ok loaded.
Proof.
  intros Htruthy Hdict. unfold main_daily, py_or. rewrite Htruthy.
  destruct loaded as [| | | |s|l|d]; simpl; auto.
  - destruct (str_contains _ _); auto.
  - destruct (existsb _ _); auto.
  - by destruct (Hdict d).
Qed.

Lemma main_daily_not_a_dict_witness :
  main_daily 3 "2025-10-29" (VList [VStr "day1"]) = Raise TypeError
  ∧ main_daily 3 "2025-10-29" (VList [VStr "day3"]) = Ok (VList [VStr "day3"]).
Proof.
  split.
  - destruct (main_daily_not_a_dict 3 "2025-10-29" (VList [VStr "day1"]))
      as [H|H]; [done|by intros d|exact H|by vm_compute in H].
  - destruct (main_daily_not_a_dict 3 "2025-10-29" (VList [VStr "day3"]))
      as [H|H]; [done|by intros d|by vm_compute in H|exact H].
Defined.

(** X13. Different days have different keys, and their records are
    added independently: ensuring two different days in one order or the
    other gives the same log. *)
Theorem main_daily_commute (m : gmap string value) (N1 N2 : Z)
    (date1 date2 : string) :
  N1 ≠ N2 →
  day_key N1 ≠ day_key N2
  ∧ (main_daily N1 date1 (VDict m) ≫= main_daily N2 date2)
    = (main_daily N2 date2 (VDict m) ≫= main_daily N1 date1).
Proof.
  intros Hne.
  assert (day_key N1 ≠ day_key N2) as Hkeys by (by intros ?%day_key_inj).
  split; [done|].
  rewrite !main_daily_dict. simpl. rewrite !main_daily_dict. do 2 f_equal.
  destruct (m !! day_key N1) as [v1|] eqn:H1;
    destruct (m !! day_key N2) as [v2|] eqn:H2;
    repeat (rewrite ?(bool_decide_true (is_Some (Some _))) by done;
            rewrite ?(bool_decide_false (is_Some None)) by (by intros [? ?]);
            rewrite ?H1, ?H2, ?lookup_insert_ne by done);
    try done.
  by apply insert_insert_ne.
Qed.

Lemma main_daily_commute_witness :
  (main_daily 3 "2025-10-29" (VDict ∅) ≫= main_daily 4 "2025-10-30")
  = (main_daily 4 "2025-10-30" (VDict ∅) ≫= main_daily 3 "2025-10-29").
Proof.
  apply (main_daily_commute ∅ 3 4 "2025-10-29" "2025-10-30"). lia.
Defined.

(** ** More on the merge *)

Lemma py_get_Ok (v : value) (k : string) (dflt x : value) :
  py_get v k dflt = Ok x → ∃ d, v = VDict d.
Proof. destruct v; try done. eauto. Qed.

Lemma py_int_sub_numeric (follower_count : Z) (b : value) :
  (∃ f, py_int_sub follower_count b = Ok f)
  ↔ baseline_numeric follower_count (Some b).
Proof.
  destruct b as [| | |f| | |]; simpl; try (split; [by intros [? ?]|done]);
    try (split; eauto; done).
  destruct (float_of_int follower_count) as [x|e]; simpl.
  - split; eauto.
  - split; [by intros [? ?]|by intros [? ?]].
Qed.

(** X14. On well-formed fetched values, the merge returns a document
    exactly when the saved document is one Python takes for false (none,
    [null], an empty object, ...) or an object whose [stats] entry, if
    any, is an object and whose top-level [marathonStartFollowers], if
    any, is a number; on any other saved document it raises. *)
Theorem main_stats_succeeds_iff follower_count is_live current_day se_stats
    top_subs top_cheers updated existing_stats :
  fetched_ok se_stats top_subs top_cheers →
  (∃ p, main_stats follower_count is_live current_day se_stats top_subs
          top_cheers updated existing_stats = Ok p)
  ↔ prior_readable follower_count existing_stats.
Proof.
  intros ((ds & -> & Hsubs & Hcheers) & Htop_subs & Htop_cheers).
  unfold main_stats, prior_readable.
  destruct (top_ok_formats _ Htop_subs) as [subs ->].
  destruct (top_ok_formats _ Htop_cheers) as [bits ->].
  destruct (block_ok_get ds "subscribers" "count" (VInt 0) Hsubs) as [tsubs ->].
  destruct (block_ok_get ds "cheers" "amount" (VInt 0) Hcheers) as [tbits ->].
  destruct (truthy existing_stats) eqn:Htruthy; [|simpl; split; eauto].
  split.
  - intros [p H]. right.
    apply bind_Ok in H as (recorded & Hrec & H).
    apply bind_Ok in H as ([followers start] & Hbase & H). simpl in H.
    apply bind_Ok in H as (chatters & (d & ->)%py_get_Ok & H). simpl in H.
    apply bind_Ok in H as (msubs & Hmsubs & _).
    exists d. split; [done|]. split.
    + simpl in Hmsubs.
      by destruct (d !! "stats") as [[| | | | | |block]|].
    + simpl in Hrec. injection Hrec as <-.
      destruct (d !! "marathonStartFollowers") as [b|] eqn:Hb; [|done].
      rewrite bool_decide_true in Hbase by done.
      simpl in Hbase. rewrite Hb in Hbase. simpl in Hbase.
      apply bind_Ok in Hbase as (f & Hf & _).
      apply py_int_sub_numeric. by exists f.
  - intros [[=]|(d & -> & Hblock & Hbase)].
    simpl py_in. simpl.
    destruct (block_ok_get d "stats" "marathonSubs" (VInt 0) Hblock)
      as [msubs Hmsubs]. simpl in Hmsubs. rewrite Hmsubs.
    destruct (d !! "marathonStartFollowers") as [b|] eqn:Hb.
    + rewrite bool_decide_true by done. simpl.
      apply py_int_sub_numeric in Hbase as [f ->]. simpl. eauto.
    + rewrite bool_decide_false by (by intros [? ?]). simpl. eauto.
Qed.

Lemma main_stats_succeeds_iff_witness :
  (∃ p, main_stats 530 false 1 (VDict ∅) (VList []) (VList []) "now"
          (VDict {[ "marathonStartFollowers" := VBool true ]}) = Ok p)
  ∧ ¬ (∃ p, main_stats 530 false 1 (VDict ∅) (VList []) (VList []) "now"
              (VDict {[ "stats" := VNone ]}) = Ok p)
  ∧ ¬ (∃ p, main_stats 530 false 1 (VDict ∅) (VList []) (VList []) "now"
              (VList [VInt 1]) = Ok p).
Proof.
  assert (fetched_ok (VDict ∅) (VList []) (VList [])) as Hfetched
    by (split; [by exists ∅|split; by exists []]).
  split; [|split].
  - apply (main_stats_succeeds_iff 530 false 1 _ _ _ "now" _ Hfetched).
    right. eexists. split; [done|]. by split.
  - intros H.
    apply (main_stats_succeeds_iff 530 false 1 _ _ _ "now" _ Hfetched) in H.
    destruct H as [H|(d & [= <-] & H & _)]; [by vm_compute in H|].
    by vm_compute in H.
  - intros H.
    apply (main_stats_succeeds_iff 530 false 1 _ _ _ "now" _ Hfetched) in H.
    by destruct H as [H|(d & [=] & _)].
Defined.

(** The document a successful merge returns, entry by entry. *)
Lemma main_stats_shape follower_count is_live current_day se_stats top_subs
    top_cheers updated existing_stats (p : processed) :
  main_stats follower_count is_live current_day se_stats top_subs top_cheers
    updated existing_stats = Ok p →
  ∃ (d block : gmap string value) (items_subs items_cheers : list value)
    (subs bits : list entry),
    stats p = VDict d
    ∧ dom d = {[ "lastUpdated"; "marathonStart"; "marathonEnd"; "currentDay";
                 "isLive"; "stats"; "topSubGifters"; "topBitDonors";
                 "topChatters" ]}
    ∧ d !! "stats" = Some (VDict block)
    ∧ dom block = {[ "totalFollowers"; "marathonFollowers";
                     "marathonStartFollowers"; "totalSubs"; "marathonSubs";
                     "totalBits" ]}
    ∧ d !! "lastUpdated" = Some (VStr updated)
    ∧ d !! "marathonStart" = Some (VStr MARATHON_START)
    ∧ d !! "marathonEnd" = Some (VStr MARATHON_END)
    ∧ d !! "currentDay" = Some (VInt current_day)
    ∧ d !! "isLive" = Some (VBool is_live)
    ∧ block !! "totalFollowers" = Some (VInt follower_count)
    ∧ block !! "totalSubs" = Some (total_subs p)
    ∧ block !! "totalBits" = Some (total_bits p)
    ∧ block !! "marathonFollowers" = Some (marathon_followers p)
    ∧ py_iter top_subs = Ok items_subs
    ∧ format_leaderboard items_subs "amount" = Ok subs
    ∧ d !! "topSubGifters" = Some (VList (entry_value <$> subs))
    ∧ py_iter top_cheers = Ok items_cheers
    ∧ format_leaderboard items_cheers "amount" = Ok bits
    ∧ d !! "topBitDonors" = Some (VList (entry_value <$> bits))
    ∧ (se_stats_total se_stats "subscribers" "count" = Ok (total_subs p))
    ∧ (se_stats_total se_stats "cheers" "amount" = Ok (total_bits p)).
Proof.
  unfold main_stats, se_stats_total. intros H.
  apply bind_Ok in H as (recorded & _ & H).
  apply bind_Ok in H as ([followers start] & _ & H).
  apply bind_Ok in H as (subs & (items_subs & Hi1 & Hsubs)%bind_Ok & H).
  apply bind_Ok in H as (bits & (items_cheers & Hi2 & Hbits)%bind_Ok & H).
  apply bind_Ok in H as (chatters & _ & H).
  apply bind_Ok in H as (tsubs & Htsubs & H).
  apply bind_Ok in H as (tbits & Htbits & H).
  apply bind_Ok in H as (msubs & _ & H).
  injection H as <-. simpl.
  eexists _, _, items_subs, items_cheers, subs, bits.
  split; [done|]. split.
  { rewrite !dom_insert_L, dom_singleton_L. set_solver. }
  split; [done|]. split.
  { rewrite !dom_insert_L, dom_singleton_L. set_solver. }
  by repeat (split; [done|]).
Qed.

(** ** Whole runs *)

(** [main], in terms of its pieces. *)
Lemma main_eq (w : world) (fs : files) :
  main w fs
  = match get_streamelements_channel_id (get w) (channel_name w) with
    | None => (fs, ChannelNotFound)
    | Some channel_id =>
        if bool_decide (channel_id = "") then (fs, ChannelNotFound)
        else
          match run_stats w channel_id fs with
          | Raise e => (fs, Raised e)
          | Ok p =>
              match run_daily w fs with
              | Raise e =>
                  ({| stats_file := Some (stats p);
                      daily_file := daily_file fs |}, Raised e)
              | Ok daily_data =>
                  ({| stats_file := Some (stats p);
                      daily_file := Some daily_data |},
                   match run_summary p with
                   | Raise e => Raised e
                   | Ok _ => Completed
                   end)
              end
          end
    end.
Proof.
  unfold main, run_stats, run_daily, run_summary, run_se_stats, channel_name.
  destruct (get_streamelements_channel_id _ _) as [[|c s]|]; [done| |done].
  rewrite bool_decide_false by done.
  destruct (main_stats _ _ _ _ _ _ _ _) as [p|e]; [|done]. simpl.
  destruct (main_daily _ _ _) as [daily|e]; [|done].
  by destruct (_ ≫= _).
Qed.

Lemma main_completed_inv (w : world) (fs fs' : files) :
  main w fs = (fs', Completed) →
  ∃ channel_id p daily,
    get_streamelements_channel_id (get w) (channel_name w) = Some channel_id
    ∧ run_stats w channel_id fs = Ok p
    ∧ run_daily w fs = Ok daily
    ∧ fs' = {| stats_file := Some (stats p); daily_file := Some daily |}.
Proof.
  rewrite main_eq.
  destruct (get_streamelements_channel_id _ _) as [id|]; [|done].
  case_bool_decide; [done|].
  destruct (run_stats w id fs) as [p|e] eqn:Hp; [|done].
  destruct (run_daily w fs) as [daily|e] eqn:Hd; [|done].
  intros [= <- _]. by exists id, p, daily.
Qed.

(** X15. A run stops at once, without writing any file, exactly when the
    channel id is not resolved: the request raises, is answered with
    another status than 200, or with a blank body. *)
Theorem main_channel_not_found (w : world) (fs : files) :
  main w fs = (fs, ChannelNotFound)
  ↔ match get w ("https://decapi.me/twitch/id/" +:+ channel_name w) with
    | None => True
    | Some r => status_code r ≠ 200 ∨ strip (text r) = ""
    end.
Proof.
  rewrite main_eq. unfold get_streamelements_channel_id.
  destruct (get w _) as [r|]; [|done].
  destruct (Z.eqb_spec (status_code r) 200) as [H200|H200].
  - case_bool_decide as Hid.
    + split; auto.
    + split; [|by intros [?|?]].
      destruct (run_stats _ _ _); [|done].
      destruct (run_daily _ _); [|done]. by destruct (run_summary _).
  - split; auto.
Qed.

Lemma main_channel_not_found_witness :
  let w := {| environ := Some "nobody"; get := scripted "12345" "500" "1 hour";
              now_day := marathon_start; now_isoformat := "now";
              now_date := "2025-10-27" |} in
  let fs := {| stats_file := Some (VDict ∅); daily_file := None |} in
  main w fs = (fs, ChannelNotFound).
Proof.
  intros w fs. by apply (main_channel_not_found w fs).
Defined.

Lemma marathon_day_range (T now : Z) : 1 ≤ marathon_day T now ≤ 28.
Proof. unfold marathon_day. lia. Qed.

Lemma main_daily_has_key (N : Z) (date : string) (loaded log : value) :
  main_daily N date loaded = Ok log → py_in (day_key N) log = Ok true.
Proof.
  unfold main_daily. intros (present & Hin & H)%bind_Ok.
  destruct present; [by injection H as <-|].
  destruct (py_or loaded (VDict ∅)) as [| | | | | |d]; try done.
  injection H as <-. simpl.
  by rewrite bool_decide_true by (by rewrite lookup_insert_eq).
Qed.

(** X16. When a run completes, both files exist.  The document has a
    [currentDay] between 1 and 28, a [totalFollowers] that is not
    negative, and two fresh leaderboards of at most 10 entries each; the
    daily log has the key of that day. *)
Theorem main_completed_document (w : world) (fs fs' : files) :
  main w fs = (fs', Completed) →
  ∃ (doc daily : value) (day followers : Z) (subs bits : list entry),
    stats_file fs' = Some doc
    ∧ daily_file fs' = Some daily
    ∧ field "currentDay" doc = Some (VInt day)
    ∧ 1 ≤ day ≤ 28
    ∧ py_in (day_key day) daily = Ok true
    ∧ stats_field "totalFollowers" doc = Some (VInt followers)
    ∧ 0 ≤ followers
    ∧ field "topSubGifters" doc = Some (VList (entry_value <$> subs))
    ∧ (length subs ≤ 10)%nat
    ∧ field "topBitDonors" doc = Some (VList (entry_value <$> bits))
    ∧ (length bits ≤ 10)%nat.
Proof.
  intros (id & p & daily & _ & Hp & Hdaily & ->)%main_completed_inv.
  unfold run_stats in Hp. unfold run_daily in Hdaily.
  apply main_stats_shape in Hp
    as (d & block & items1 & items2 & subs & bits & Hd & _ & Hblock & _ & _ & _
        & _ & Hday & _ & Hfollowers & _ & _ & _ & Hi1 & Hf1 & Hsubs & Hi2
        & Hf2 & Hbits & _).
  exists (stats p), daily, (calculate_marathon_day (now_day w)),
    (get_twitch_follower_count (get w) (channel_name w)), subs, bits.
  rewrite Hd. unfold stats_field. simpl. rewrite Hblock. simpl.
  repeat (split; [done || apply marathon_day_range
                  || (by eapply main_daily_has_key)
                  || apply follower_count_nonneg|]);
    try done.
  - split.
    + destruct (top_data_items (get w) id "subscriber") as (items & Hi & Hlen).
      rewrite Hi1 in Hi. injection Hi as ->.
      apply format_leaderboard_bounds in Hf1 as [_ Hf1]. lia.
    + split; [done|].
      destruct (top_data_items (get w) id "cheer") as (items & Hi & Hlen).
      rewrite Hi2 in Hi. injection Hi as ->.
      apply format_leaderboard_bounds in Hf2 as [_ Hf2]. lia.
Qed.

Lemma main_completed_document_witness :
  let w := {| environ := None; get := scripted "12345" "500" "1 hour";
              now_day := marathon_start + 40 * day_us; now_isoformat := "now";
              now_date := "2025-12-06" |} in
  ∃ fs' doc,
    main w {| stats_file := None; daily_file := None |} = (fs', Completed)
    ∧ stats_file fs' = Some doc
    ∧ field "currentDay" doc = Some (VInt 28).
Proof.
  intros w.
  destruct (main w {| stats_file := None; daily_file := None |})
    as [fs' o] eqn:Hmain.
  assert (o = Completed) as -> by (by vm_compute in Hmain; injection Hmain).
  destruct (main_completed_document w _ fs' Hmain)
    as (doc & daily & day & followers & subs & bits & Hdoc & _).
  exists fs', doc. split; [done|]. split; [done|].
  revert Hmain Hdoc. vm_compute. intros [= <-] [= <-]. reflexivity.
Defined.

(** X17. A second run on the same marathon day leaves the daily log as
    a completed first run wrote it, however the second run ends. *)
Theorem main_same_day (w1 w2 : world) (fs fs1 : files) :
  main w1 fs = (fs1, Completed) →
  calculate_marathon_day (now_day w2) = calculate_marathon_day (now_day w1) →
  daily_file (main w2 fs1).1 = daily_file fs1.
Proof.
  intros (id & p & daily & _ & _ & Hdaily & ->)%main_completed_inv Hday.
  unfold run_daily in Hdaily.
  apply (main_daily_again _ _ (now_date w2)) in Hdaily.
  rewrite main_eq. unfold run_daily at 1. simpl. rewrite Hday, Hdaily.
  destruct (get_streamelements_channel_id _ _) as [id2|]; [|done].
  case_bool_decide; [done|].
  by destruct (run_stats _ _ _).
Qed.

Lemma main_same_day_witness :
  let w1 := {| environ := None; get := scripted "12345" "500" "1 hour";
               now_day := marathon_start + 5; now_isoformat := "first";
               now_date := "2025-10-27" |} in
  let w2 := {| environ := None; get := scripted "12345" "530" "offline";
               now_day := marathon_start + 3600 * 1000000;
               now_isoformat := "second"; now_date := "2025-10-27" |} in
  let fs1 := (main w1 {| stats_file := None; daily_file := None |}).1 in
  daily_file (main w2 fs1).1 = daily_file fs1.
Proof.
  intros w1 w2 fs1.
  apply (main_same_day w1 w2 {| stats_file := None; daily_file := None |} fs1);
    by vm_compute.
Defined.

(** X18. A daily file that holds a non-empty JSON array without the key
    of the day is never repaired: whatever else happens in the run, it
    does not complete and leaves [daily.json] as it was. *)
Theorem main_daily_unreadable (w : world) (fs : files) (l : list value) :
  daily_file fs = Some (VList l) →
  l ≠ [] →
  VStr (day_key (calculate_marathon_day (now_day w))) ∉ l →
  daily_file (main w fs).1 = daily_file fs
  ∧ (main w fs).2 ≠ Completed.
Proof.
  intros Hdaily Hl Hkey.
  assert (run_daily w fs = Raise TypeError) as Hraise.
  { unfold run_daily, main_daily, py_or. rewrite Hdaily. simpl.
    destruct l as [|x l]; [done|]. simpl.
    assert (existsb
              (λ x, match x with
                    | VStr s =>
                        String.eqb
                          (day_key (calculate_marathon_day (now_day w))) s
                    | _ => false
                    end) (x :: l) = false) as Hex.
    { apply not_true_is_false. intros (y & Hy & Hmatch)%existsb_exists.
      destruct y as [| | | |s| |]; try done.
      apply String.eqb_eq in Hmatch as <-.
      by apply Hkey, list_elem_of_In. }
    simpl in Hex. by rewrite Hex. }
  rewrite main_eq, Hraise.
  destruct (get_streamelements_channel_id _ _) as [id|]; [|done].
  case_bool_decide; [done|].
  by destruct (run_stats _ _ _).
Qed.

Lemma main_daily_unreadable_witness :
  let w := {| environ := None; get := scripted "12345" "500" "1 hour";
              now_day := marathon_start; now_isoformat := "now";
              now_date := "2025-10-27" |} in
  let fs := {| stats_file := None; daily_file := Some (VList [VInt 1]) |} in
  daily_file (main w fs).1 = Some (VList [VInt 1])
  ∧ (main w fs).2 ≠ Completed.
Proof.
  intros w fs.
  apply (main_daily_unreadable w fs [VInt 1]); try done.
  intros [H|H]%elem_of_cons; [done|by apply elem_of_nil in H].
Defined.

(** X19. The fields the merge computes afresh do not depend on the saved
    document: two merges of the same fetched values, on whatever saved
    documents, agree on the two leaderboards, the totals, the day and the
    live flag. *)
Theorem main_stats_fresh_fields follower_count is_live current_day se_stats
    top_subs top_cheers updated existing_stats1 existing_stats2
    (p1 p2 : processed) :
  main_stats follower_count is_live current_day se_stats top_subs top_cheers
    updated existing_stats1 = Ok p1 →
  main_stats follower_count is_live current_day se_stats top_subs top_cheers
    updated existing_stats2 = Ok p2 →
  Forall (λ k, field k (stats p1) = field k (stats p2))
    [ "topSubGifters"; "topBitDonors"; "currentDay"; "isLive"; "lastUpdated";
      "marathonStart"; "marathonEnd" ]
  ∧ Forall (λ k, stats_field k (stats p1) = stats_field k (stats p2))
      [ "totalFollowers"; "totalSubs"; "totalBits" ].
Proof.
  intros
    (d1 & b1 & i1 & j1 & s1 & t1 & -> & _ & Hb1 & _ & Hu1 & Hms1 & Hme1 & Hd1
     & Hl1 & Hf1 & Hts1 & Htb1 & _ & Hi1 & Hfs1 & Hs1 & Hj1 & Hft1 & Ht1
     & Hse1 & Hsb1)%main_stats_shape
    (d2 & b2 & i2 & j2 & s2 & t2 & -> & _ & Hb2 & _ & Hu2 & Hms2 & Hme2 & Hd2
     & Hl2 & Hf2 & Hts2 & Htb2 & _ & Hi2 & Hfs2 & Hs2 & Hj2 & Hft2 & Ht2
     & Hse2 & Hsb2)%main_stats_shape.
  rewrite Hi1 in Hi2. injection Hi2 as <-.
  rewrite Hj1 in Hj2. injection Hj2 as <-.
  rewrite Hfs1 in Hfs2. injection Hfs2 as <-.
  rewrite Hft1 in Hft2. injection Hft2 as <-.
  rewrite Hse1 in Hse2. injection Hse2 as Hse.
  rewrite Hsb1 in Hsb2. injection Hsb2 as Hsb.
  unfold stats_field. simpl.
  rewrite Hb1, Hb2. simpl.
  split; repeat constructor; congruence.
Qed.

Lemma main_stats_fresh_fields_witness :
  ∃ p1 p2,
    main_stats 530 true 2 (VDict ∅)
      (VList [ VDict {[ "name" := VStr "a"; "amount" := VInt 3 ]} ])
      (VList []) "now" VNone = Ok p1
    ∧ main_stats 530 true 2 (VDict ∅)
        (VList [ VDict {[ "name" := VStr "a"; "amount" := VInt 3 ]} ])
        (VList []) "now"
        (VDict {[ "topSubGifters" := VList [ VStr "old" ] ]}) = Ok p2
    ∧ field "topSubGifters" (stats p1) = field "topSubGifters" (stats p2).
Proof.
  eexists _, _. split; [by vm_compute|]. split; [by vm_compute|].
  match goal with
  | |- field _ (stats ?p1) = field _ (stats ?p2) =>
      destruct (main_stats_fresh_fields 530 true 2 (VDict ∅)
                  (VList [ VDict {[ "name" := VStr "a"; "amount" := VInt 3 ]} ])
                  (VList []) "now" VNone
                  (VDict {[ "topSubGifters" := VList [ VStr "old" ] ]})
                  p1 p2) as [Hfields _]; [by vm_compute..|]
  end.
  by apply Forall_cons in Hfields as [Hfirst _].
Defined.

(** ** A run where only the channel id is resolved *)

Lemma fails_follower_count (get : requests) (name : string) :
  fails (get ("https://decapi.me/twitch/followcount/" +:+ name)) →
  get_twitch_follower_count get name = 0.
Proof.
  unfold get_twitch_follower_count, fails.
  destruct (get _) as [r|]; [|done].
  by destruct (Z.eqb_spec (status_code r) 200).
Qed.

Lemma fails_stats (get : requests) (id : string) :
  fails (get ("https://api.streamelements.com/kappa/v2/channels/"
              +:+ id +:+ "/stats")) →
  get_streamelements_stats get id = VNone.
Proof.
  unfold get_streamelements_stats, fails.
  destruct (get _) as [r|]; [|done].
  by destruct (Z.eqb_spec (status_code r) 200).
Qed.

Lemma fails_top_data (get : requests) (id kind : string) :
  fails (get ("https://api.streamelements.com/kappa/v2/channels/"
              +:+ id +:+ "/top/" +:+ kind)) →
  get_streamelements_top_data get id kind = VList [].
Proof.
  unfold get_streamelements_top_data, fails.
  destruct (get _) as [r|]; [|done].
  by destruct (Z.eqb_spec (status_code r) 200).
Qed.

(** X21. A first run in which the channel id is resolved and every other
    request fails (it raises, or is answered with another status than
    200) still completes and writes both files: the counts are 0, the
    leaderboards empty, and the daily log has the record of the day. *)
Theorem main_soft_failure (w : world) (r : response) :
  get w ("https://decapi.me/twitch/id/" +:+ channel_name w) = Some r →
  status_code r = 200 →
  strip (text r) ≠ "" →
  (∀ url, url ≠ "https://decapi.me/twitch/id/" +:+ channel_name w →
          fails (get w url)) →
  ∃ doc : value,
    main w {| stats_file := None; daily_file := None |}
    = ({| stats_file := Some doc;
          daily_file :=
            Some (VDict {[ day_key (calculate_marathon_day (now_day w))
                           := new_day (now_date w) ]}) |},
       Completed)
    ∧ Forall (λ k, stats_field k doc = Some (VInt 0))
        [ "totalFollowers"; "marathonFollowers"; "marathonStartFollowers";
          "totalSubs"; "marathonSubs"; "totalBits" ]
    ∧ Forall (λ k, field k doc = Some (VList []))
        [ "topSubGifters"; "topBitDonors"; "topChatters" ].
Proof.
  intros Hget H200 Hid Hfails.
  rewrite main_eq. unfold get_streamelements_channel_id.
  rewrite Hget, H200. simpl. rewrite bool_decide_false by done.
  unfold run_stats, run_se_stats, run_daily.
  rewrite fails_follower_count, fails_stats, !fails_top_data;
    try (apply Hfails; cbv [String.app]; intros Hurl; discriminate Hurl).
  simpl. eexists. split; [reflexivity|].
  split; by repeat constructor.
Qed.

Lemma main_soft_failure_witness :
  let w := {| environ := None;
              get := λ url,
                if String.eqb url "https://decapi.me/twitch/id/marlon"
                then Some {| status_code := 200; text := "12345"; json := None |}
                else Some {| status_code := 500; text := "offline";
                             json := None |};
              now_day := marathon_start; now_isoformat := "now";
              now_date := "2025-10-27" |} in
  ∃ fs', main w {| stats_file := None; daily_file := None |} = (fs', Completed).
Proof.
  intros w.
  destruct (main_soft_failure w
              {| status_code := 200; text := "12345"; json := None |})
    as (doc & Hmain & _); try done.
  - intros url Hurl. unfold w. simpl.
    destruct (String.eqb_spec url "https://decapi.me/twitch/id/marlon");
      [done|]. by simpl.
  - eauto.
Defined.

(** ** Sequences of runs *)

Lemma runs_snoc (ws : list world) (w : world) (fs : files) :
  runs (ws ++ [w]) fs = (main w (runs ws fs)).1.
Proof. unfold runs. by rewrite foldl_app. Qed.

Lemma day_key_in_day_keys (n : Z) : 1 ≤ n ≤ 28 → day_key n ∈ day_keys.
Proof.
  intros Hn. unfold day_keys. rewrite elem_of_list_to_set, list_elem_of_fmap.
  exists n. split; [done|]. apply elem_of_seqZ. lia.
Qed.

(** The daily file of a run, in terms of the one it found. *)
Lemma main_daily_file (w : world) (fs : files) :
  daily_file (main w fs).1 = daily_file fs
  ∨ ∃ log, run_daily w fs = Ok log ∧ daily_file (main w fs).1 = Some log.
Proof.
  rewrite main_eq.
  destruct (get_streamelements_channel_id _ _) as [id|]; [|by left].
  case_bool_decide; [by left|].
  destruct (run_stats _ _ _); [|by left].
  destruct (run_daily _ _) as [log|]; [|by left].
  right. by exists log.
Qed.

(** The stats file of a run, in terms of the one it found. *)
Lemma main_stats_file (w : world) (fs : files) :
  stats_file (main w fs).1 = stats_file fs
  ∨ ∃ id p, run_stats w id fs = Ok p
            ∧ stats_file (main w fs).1 = Some (stats p).
Proof.
  rewrite main_eq.
  destruct (get_streamelements_channel_id _ _) as [id|]; [|by left].
  case_bool_decide; [by left|].
  destruct (run_stats _ _ _) as [p|] eqn:Hp; [|by left].
  right. exists id, p. split; [done|]. by destruct (run_daily _ _).
Qed.

(** X22. Starting without files, however many runs follow one another
    and however each of them ends, the daily log, once written, is an
    object whose keys are keys of the 28 days: it never has more than 28
    records. *)
Theorem runs_daily_log (ws : list world) :
  daily_file (runs ws no_files) = None
  ∨ ∃ m : gmap string value,
      daily_file (runs ws no_files) = Some (VDict m)
      ∧ dom m ⊆ day_keys
      ∧ (size m ≤ 28)%nat.
Proof.
  assert (daily_file (runs ws no_files) = None
          ∨ ∃ m : gmap string value,
              daily_file (runs ws no_files) = Some (VDict m)
              ∧ dom m ⊆ day_keys) as [H|(m & Hm & Hdom)].
  { induction ws as [|w ws IH] using rev_ind; [by left|].
    rewrite runs_snoc.
    destruct (main_daily_file w (runs ws no_files))
      as [->|(log & Hlog & ->)]; [done|].
    right. unfold run_daily in Hlog.
    assert (∃ m : gmap string value,
              main_daily (calculate_marathon_day (now_day w)) (now_date w)
                (VDict m) = Ok log
              ∧ dom m ⊆ day_keys) as (m & Hm & Hdom).
    { destruct IH as [Hnone|(m & Hsome & Hdom)].
      - exists ∅. split; [|set_solver].
        rewrite Hnone in Hlog. revert Hlog.
        unfold main_daily. by rewrite py_or_dict.
      - exists m. by rewrite Hsome in Hlog. }
    clear Hlog. rename Hm into Hlog.
    rewrite main_daily_dict in Hlog. injection Hlog as <-.
    eexists. split; [done|].
    case_bool_decide; [done|].
    rewrite dom_insert_L.
    pose proof (day_key_in_day_keys (calculate_marathon_day (now_day w))
                  (marathon_day_range _ _)).
    set_solver. }
  - by left.
  - right. exists m. split; [done|]. split; [done|].
    rewrite <- size_dom.
    etrans; [by apply subseteq_size|].
    by vm_compute.
Qed.

(** X23. Starting without files, however many runs follow one another,
    the saved document, once written, has its baseline inside the [stats]
    block and none at the top level, so every run takes the follower
    count it fetched for the baseline: in every document written,
    [marathonStartFollowers] equals [totalFollowers] and
    [marathonFollowers] is 0. *)
Theorem runs_baseline (ws : list world) :
  stats_file (runs ws no_files) = None
  ∨ ∃ (d : gmap string value) (followers : Z),
      stats_file (runs ws no_files) = Some (VDict d)
      ∧ d !! "marathonStartFollowers" = None
      ∧ stats_field "totalFollowers" (VDict d) = Some (VInt followers)
      ∧ stats_field "marathonStartFollowers" (VDict d) = Some (VInt followers)
      ∧ stats_field "marathonFollowers" (VDict d) = Some (VInt 0).
Proof.
  induction ws as [|w ws IH] using rev_ind; [by left|].
  rewrite runs_snoc.
  destruct (main_stats_file w (runs ws no_files))
    as [->|(id & p & Hp & ->)]; [done|].
  right. unfold run_stats in Hp.
  apply main_stats_inv in Hp
    as (recorded & followers & start & Hrec & Hf & Hs & Hmf & Hmsf & Htotal
        & _ & _ & Htop & d & block & Hd & _).
  assert (recorded = false) as ->.
  { destruct IH as [Hnone|(d0 & n0 & Hsome & Hd0 & _)].
    - rewrite Hnone in Hrec. by injection Hrec as <-.
    - rewrite Hsome in Hrec. simpl load_existing_data in Hrec.
      rewrite recorded_dict, Hd0 in Hrec. by injection Hrec as <-. }
  injection Hf as <-. injection Hs as <-.
  rewrite Hd in *.
  by exists d, (get_twitch_follower_count (get w) (channel_name w)).
Qed.

(** ** What the merge needs of the fetched values *)

Lemma leaderboard_loop_finite amount_key (users : list (gmap string value))
    (leaderboard result : list entry) :
  leaderboard_loop amount_key (VDict <$> users) leaderboard = Ok result →
  Forall (λ d, user_amount amount_key d ≠ VFloat (S754_infinity false)) users.
Proof.
  revert leaderboard. induction users as [|d users IH]; intros leaderboard;
    [done|].
  simpl. rewrite leaderboard_append_dict.
  intros (lb & Hlb & Hrest%IH)%bind_Ok.
  constructor; [|done].
  intros Hinf. rewrite Hinf in Hlb. by simpl in Hlb.
Qed.

Lemma format_leaderboard_records amount_key (items : list value)
    (out : list entry) :
  format_leaderboard items amount_key = Ok out →
  ∃ users : list (gmap string value),
    items = VDict <$> users
    ∧ Forall (λ d, user_amount amount_key d ≠ VFloat (S754_infinity false))
        users.
Proof.
  unfold format_leaderboard. intros (lb & Hlb & _)%bind_Ok.
  destruct (leaderboard_loop_dicts _ _ _ _ Hlb) as [users ->].
  exists users. split; [done|]. by eapply leaderboard_loop_finite.
Qed.

Lemma se_stats_total_Ok (se_stats : value) (block k : string) (x : value) :
  se_stats_total se_stats block k = Ok x →
  ∃ d, se_stats = VDict d
       ∧ block_ok (d !! block)
       ∧ x = default (VInt 0) (d !! block ≫= field k).
Proof.
  unfold se_stats_total.
  intros (b & Hb & Hx)%bind_Ok.
  destruct (py_get_Ok _ _ _ _ Hb) as [d ->]. simpl in Hb. injection Hb as <-.
  exists d. destruct (d !! block) as [[| | | | | |b]|]; simpl in *; try done.
  - injection Hx as <-. done.
  - injection Hx as <-. by rewrite lookup_empty.
Qed.

(** X24. The merge returns a document only on fetched values it can
    read: statistics that are an object whose [subscribers] and [cheers]
    entries, if any, are objects, and top lists whose items are all
    objects, none with an infinite amount.  The totals it writes are then
    the [count] of [subscribers] and the [amount] of [cheers], 0 where
    an entry is missing. *)
Theorem main_stats_fetched follower_count is_live current_day se_stats
    top_subs top_cheers updated existing_stats (p : processed) :
  main_stats follower_count is_live current_day se_stats top_subs top_cheers
    updated existing_stats = Ok p →
  ∃ (ds : gmap string value) (subs cheers : list (gmap string value)),
    se_stats = VDict ds
    ∧ block_ok (ds !! "subscribers") ∧ block_ok (ds !! "cheers")
    ∧ stats_field "totalSubs" (stats p)
      = Some (default (VInt 0) (ds !! "subscribers" ≫= field "count"))
    ∧ stats_field "totalBits" (stats p)
      = Some (default (VInt 0) (ds !! "cheers" ≫= field "amount"))
    ∧ py_iter top_subs = Ok (VDict <$> subs)
    ∧ Forall (λ d, user_amount "amount" d ≠ VFloat (S754_infinity false)) subs
    ∧ py_iter top_cheers = Ok (VDict <$> cheers)
    ∧ Forall (λ d, user_amount "amount" d ≠ VFloat (S754_infinity false))
        cheers.
Proof.
  intros (d & block & i1 & i2 & s1 & s2 & Hd & _ & Hblock & _ & _ & _ & _ & _
          & _ & _ & Hts & Htb & _ & Hi1 & Hf1 & _ & Hi2 & Hf2 & _ & Hse1
          & Hse2)%main_stats_shape.
  apply se_stats_total_Ok in Hse1 as (ds & -> & Hb1 & Hx1).
  apply se_stats_total_Ok in Hse2 as (ds' & [= <-] & Hb2 & Hx2).
  apply format_leaderboard_records in Hf1 as (subs & -> & Hsubs).
  apply format_leaderboard_records in Hf2 as (cheers & -> & Hcheers).
  exists ds, subs, cheers.
  rewrite Hd. unfold stats_field. simpl. rewrite Hblock. simpl.
  rewrite Hts, Htb, <- Hx1, <- Hx2.
  by repeat (split; [done|]).
Qed.

Lemma main_stats_fetched_witness :
  ∃ p, main_stats 500 false 1
         (VDict {[ "subscribers" := VDict {[ "count" := VInt 10 ]} ]})
         (VList []) (VList []) "now" VNone = Ok p
       ∧ stats_field "totalSubs" (stats p) = Some (VInt 10)
       ∧ stats_field "totalBits" (stats p) = Some (VInt 0).
Proof.
  destruct (main_stats 500 false 1
              (VDict {[ "subscribers" := VDict {[ "count" := VInt 10 ]} ]})
              (VList []) (VList []) "now" VNone) as [p|e] eqn:Hp;
    [|by vm_compute in Hp].
  destruct (main_stats_fetched _ _ _ _ _ _ _ _ p Hp)
    as (ds & subs & cheers & [= <-] & _ & _ & Hsubs & Hbits & _).
  exists p. split; [done|]. by split.
Defined.
